(** * Productivity Tracker: the extension scripts and the REST API, embedded

    The development follows the repository script by script:
    - [JsString], [JsObject]: the JavaScript string and object operations the
      scripts call ([startsWith], [includes], [replace], [toLowerCase],
      property lookup);
    - [Background]: the service worker, background.js (src/unnamed/part_000):
      domain extraction, classification, the tracking state machine, the
      local day buckets, the retention sweep;
    - [LegacyBackground]: the older copy of the background script (the
      second script of src/extension/content/content.js);
    - [Dashboard]: [categorizeWebsite] of dashboard.js
      (src/extension/dashboard/dashboard.js);
    - [Popup]: the category editor of the popup script (the second script of
      src/extension/dashboard/dashboard.js);
    - [Api]: the Express routes over the TimeEntry collection (the schema and
      the router of src/backend/models/timeEntry.js).

    Numbers are [Z] wherever the scripts only add, subtract and compare
    integers (millisecond clocks, counters, durations); the one place where a
    quotient is rounded ([productivityScore]) uses IEEE doubles ([float]).
    Strings are [string]; hostnames and storage keys are ASCII. What the
    scripts take from their host (the URL parser, the date parser, the
    calendar, the database's pattern matcher) is a [Variable] of the section
    that uses it. *)

From Stdlib Require Import ZArith String Ascii List Bool Lia.
From Stdlib Require Import Floats Uint63.
From stdpp Require Import gmap strings list sorting pretty.

Open Scope string_scope.
Open Scope list_scope.
Open Scope Z_scope.

(* ===================================================================== *)
(** * Part I: the embedding                                                *)
(* ===================================================================== *)

(** ** JavaScript strings *)
Module JsString.

(** [s.startsWith(p)] *)
Definition startsWith (s p : string) : bool := String.prefix p s.

(** [s.includes(sub)]: [sub] occurs at some position of [s]. *)
Fixpoint includes (s sub : string) : bool :=
  match s with
  | EmptyString => String.prefix sub EmptyString
  | String _ rest => String.prefix sub s || includes rest sub
  end.

(** [s.slice(n)] *)
Fixpoint slice_from (n : nat) (s : string) : string :=
  match n, s with
  | O, _ => s
  | S _, EmptyString => EmptyString
  | S n', String _ rest => slice_from n' rest
  end.

(** [s.replace(pat, '')] with a string pattern: the first occurrence of
    [pat], wherever it is, is removed. *)
Fixpoint replace_with_empty (s pat : string) : string :=
  if String.prefix pat s then slice_from (String.length pat) s
  else match s with
       | EmptyString => EmptyString
       | String c rest => String c (replace_with_empty rest pat)
       end.

(** [s.replace(/^www\./, '')]: the pattern is anchored at the start. *)
Definition replace_leading_www (s : string) : string :=
  if String.prefix "www." s then slice_from 4 s else s.

Definition lower_ascii (c : ascii) : ascii :=
  let n := nat_of_ascii c in
  if (Nat.leb 65 n && Nat.leb n 90)%bool then ascii_of_nat (n + 32) else c.

(** [s.toLowerCase()] on ASCII text. *)
Fixpoint toLowerCase (s : string) : string :=
  match s with
  | EmptyString => EmptyString
  | String c rest => String (lower_ascii c) (toLowerCase rest)
  end.

(** [l.some(p)] *)
Definition some {A : Type} (p : A -> bool) (l : list A) : bool := existsb p l.

End JsString.

(** ** JavaScript objects used as dictionaries *)
Module JsObject.

(** The names every plain object inherits from [Object.prototype]. *)
Definition Object_prototype_keys : list string :=
  [ "constructor"; "__defineGetter__"; "__defineSetter__"; "hasOwnProperty";
    "__lookupGetter__"; "__lookupSetter__"; "isPrototypeOf";
    "propertyIsEnumerable"; "toString"; "valueOf"; "__proto__";
    "toLocaleString" ].

Definition inherited (k : string) : bool :=
  bool_decide (k ∈ Object_prototype_keys).

(** The result of [o[k]]: an own property, a member of the prototype, or
    [undefined]. *)
Inductive Lookup (V : Type) : Type :=
| Own (v : V)
| Inherited (name : string)
| Undefined.
Arguments Own {V} v.
Arguments Inherited {V} name.
Arguments Undefined {V}.

Definition get {V : Type} (o : gmap string V) (k : string) : Lookup V :=
  match o !! k with
  | Some v => Own v
  | None => if inherited k then Inherited k else Undefined
  end.

End JsObject.

(** ** chrome.storage.local *)
Module Storage.

(** The [categories] item: two arrays of site names. *)
Record Categories : Type := mkCategories {
  productive : list string;
  unproductive : list string
}.

(** One hostname's entry of a day bucket. *)
Record SiteStats : Type := mkSiteStats {
  totalTime : Z;
  visits : Z;
  category : string;
  lastVisit : Z;
  title : string
}.

(** The items of the store: the category object, a day bucket, or
    anything else (given by its JSON text), which the scripts never read. *)
Inductive Value : Type :=
| VCategories (c : Categories)
| VTimeData (d : gmap string SiteStats)
| VOther (json : string).

(** What the request to the backend carries. *)
Record BackendEntry : Type := mkBackendEntry {
  be_hostname : string;
  be_duration : Z;
  be_url : string;
  be_title : option string;
  be_category : string
}.

End Storage.

(** ** background.js *)
Module Background.
Import JsString Storage.

Record Tab : Type := mkTab {
  tab_id : Z;
  tab_url : option string;
  tab_title : option string
}.

(** The three module-level variables. *)
Record Tracker : Type := mkTracker {
  currentTab : option Tab;
  startTime : option Z;
  isTracking : bool
}.

(** The tracker, the local store, and the entries posted to the backend
    (oldest first). *)
Record World : Type := mkWorld {
  tracker : Tracker;
  storage : gmap string Value;
  outbox : list BackendEntry
}.

Definition idle : Tracker :=
  {| currentTab := None; startTime := None; isTracking := false |}.

Definition with_tracker (t : Tracker) (w : World) : World :=
  {| tracker := t; storage := storage w; outbox := outbox w |}.

(** The default of [initializeStorage]. *)
Definition defaultCategories : Categories :=
  {| productive :=
       [ "github.com"; "stackoverflow.com"; "docs.google.com"; "notion.so";
         "trello.com"; "asana.com"; "slack.com"; "zoom.us"; "figma.com";
         "codepen.io"; "developer.mozilla.org"; "w3schools.com" ];
     unproductive :=
       [ "facebook.com"; "twitter.com"; "instagram.com"; "youtube.com";
         "reddit.com"; "tiktok.com"; "netflix.com"; "twitch.tv";
         "pinterest.com"; "snapchat.com" ] |}.

Definition initializeStorage (w : World) : World :=
  {| tracker := tracker w;
     storage := <["categories" := VCategories defaultCategories]> (storage w);
     outbox := outbox w |}.

(** The two membership tests of [getWebsiteCategory], on a category object. *)
Definition classify (categories : Categories) (domain : string) : string :=
  if some (fun site => includes domain site) (productive categories)
  then "productive"
  else if some (fun site => includes domain site) (unproductive categories)
  then "unproductive"
  else "neutral".

(** [getWebsiteCategory(domain)]. A missing [categories] item is replaced by
    two empty arrays; an item of another shape makes [.some] throw, and the
    handler answers ['neutral']. *)
Definition getWebsiteCategory (domain : string) (st : gmap string Value) : string :=
  match st !! "categories" with
  | None => classify {| productive := []; unproductive := [] |} domain
  | Some (VCategories categories) => classify categories domain
  | Some _ => "neutral"
  end.

Section Host.

(** [new URL(url).hostname] of the host; [None] when the constructor
    throws. *)
Variable URL_hostname : string -> option string.

(** [getDomain(url)] *)
Definition getDomain (url : string) : string :=
  match URL_hostname url with
  | Some hostname => replace_leading_www hostname
  | None => url
  end.

(** [title || domain] *)
Definition title_or (title : option string) (domain : string) : string :=
  match title with
  | Some t => if String.eqb t "" then domain else t
  | None => domain
  end.

(** The read-modify-write of one day bucket in [saveTimeEntry]. A domain
    whose name is a member of [Object.prototype] and has no own entry reads
    as truthy: no entry is created and the counters written are not the
    bucket's. *)
Definition record_visit (now : Z) (domain : string) (timeSpent : Z)
    (tabTitle : option string) (cat : string)
    (timeData : gmap string SiteStats) : gmap string SiteStats :=
  let bump (s : SiteStats) :=
    {| totalTime := totalTime s + timeSpent;
       visits := visits s + 1;
       category := category s;
       lastVisit := now;
       title := title s |} in
  match JsObject.get timeData domain with
  | JsObject.Own s => <[domain := bump s]> timeData
  | JsObject.Inherited _ => timeData
  | JsObject.Undefined =>
      <[domain := bump {| totalTime := 0; visits := 0; category := cat;
                          lastVisit := now; title := title_or tabTitle domain |}]>
        timeData
  end.

(** [saveTimeEntry(domain, timeSpent, url, title)]: the day bucket of
    [today] is updated and written back, then the entry is posted. [now] is
    the clock and [today] its ISO date ([toISOString().split('T')[0]]). The
    bucket starts empty when the key is absent; the tracker is the only
    writer of [timeData_] keys, so nothing else is found under one. *)
Definition saveTimeEntry (now : Z) (today : string)
    (domain : string) (timeSpent : Z) (url : string) (tabTitle : option string)
    (w : World) : World :=
  let storageKey := "timeData_" +:+ today in
  let timeData :=
    match storage w !! storageKey with
    | Some (VTimeData d) => d
    | _ => ∅
    end in
  let cat := getWebsiteCategory domain (storage w) in
  let timeData' := record_visit now domain timeSpent tabTitle cat timeData in
  let st' := <[storageKey := VTimeData timeData']> (storage w) in
  {| tracker := tracker w;
     storage := st';
     outbox := outbox w ++
       [ {| be_hostname := domain; be_duration := timeSpent; be_url := url;
            be_title := tabTitle; be_category := getWebsiteCategory domain st' |} ] |}.

(** [startTracking(tab)] *)
Definition startTracking (now : Z) (tab : Tab) (w : World) : World :=
  with_tracker
    {| currentTab := Some tab; startTime := Some now; isTracking := true |} w.

(** The url of the tracked tab as [getDomain] receives it. [startTracking]
    only ever stores a tab with a url; a tab without one would read as
    [undefined]. *)
Definition url_of (tab : Tab) : string :=
  match tab_url tab with
  | Some u => u
  | None => "undefined"
  end.

(** [stopTracking()]. The guard returns on [!isTracking], on a null
    [currentTab] and on a null or zero [startTime]. *)
Definition stopTracking (now : Z) (today : string) (w : World) : World :=
  match currentTab (tracker w), startTime (tracker w) with
  | Some tab, Some start =>
      if negb (isTracking (tracker w)) || (start =? 0) then w
      else
        let endTime := now in
        let timeSpentMs := endTime - start in
        let timeSpent := timeSpentMs / 1000 in
        let domain := getDomain (url_of tab) in
        let w' :=
          if timeSpent >? 1
          then saveTimeEntry now today domain timeSpent (url_of tab) (tab_title tab) w
          else w in
        with_tracker idle w'
  | _, _ => w
  end.

(** A handler body either completes or throws, in both cases leaving a
    world behind. *)
Inductive Completion : Type :=
| Normal (w : World)
| Throw (w : World).

(** The [try] block of [handleTabChange]. [tabs_get] is [chrome.tabs.get]:
    [None] when the promise rejects (no tab with that id). *)
Definition handleTabChange_try (now : Z) (today : string)
    (tabs_get : Z -> option Tab) (tabId : Z) (w : World) : Completion :=
  let w1 := stopTracking now today w in
  match tabs_get tabId with
  | None => Throw w1
  | Some tab =>
      match tab_url tab with
      | Some url =>
          if negb (String.eqb url "") && negb (startsWith url "chrome://")
          then Normal (startTracking now tab w1)
          else Normal w1
      | None => Normal w1
      end
  end.

(** [handleTabChange(tabId)]: the [catch] clause logs and returns. *)
Definition handleTabChange (now : Z) (today : string)
    (tabs_get : Z -> option Tab) (tabId : Z) (w : World) : Completion :=
  match handleTabChange_try now today tabs_get tabId w with
  | Normal w' => Normal w'
  | Throw w' => Normal w'
  end.

(** What the listeners ask the browser. *)
Record Browser : Type := mkBrowser {
  tabs_get : Z -> option Tab;          (* chrome.tabs.get(tabId) *)
  tabs_query_active : Z -> option Tab  (* first of chrome.tabs.query({active, windowId}) *)
}.

Inductive Event : Type :=
| TabActivated (tabId : Z)
| TabUpdated (tabId : Z) (status_complete : bool) (tab_active : bool)
| WindowFocusChanged (windowId : Z).

Definition WINDOW_ID_NONE : Z := -1.

(** The three listeners registered on [chrome.tabs] and [chrome.windows]. *)
Definition dispatch (now : Z) (today : string) (b : Browser) (e : Event)
    (w : World) : Completion :=
  match e with
  | TabActivated tabId => handleTabChange now today (tabs_get b) tabId w
  | TabUpdated tabId status_complete tab_active =>
      if status_complete && tab_active
      then handleTabChange now today (tabs_get b) tabId w
      else Normal w
  | WindowFocusChanged windowId =>
      if windowId =? WINDOW_ID_NONE then Normal (stopTracking now today w)
      else match tabs_query_active b windowId with
           | Some activeTab =>
               handleTabChange now today (tabs_get b) (tab_id activeTab) w
           | None => Normal w
           end
  end.

End Host.

Section Retention.

(** [new Date(s).getTime()] of the host; [None] for an Invalid Date. *)
Variable Date_parse : string -> option Z.

(** The instant [d.setDate(d.getDate() - n)] leaves in a date [d] created
    at the given instant (the host's local calendar). *)
Variable setDate_back : Z -> Z -> Z.

(** [Object.keys(all)] *)
Definition Object_keys (all : gmap string Value) : list string :=
  (map_to_list all).*1.

(** The filter of [cleanupOldData]: [date < cutoff] is false for an
    Invalid Date. *)
Definition is_old (cutoff : Z) (key : string) : bool :=
  if startsWith key "timeData_" then
    match Date_parse (replace_with_empty key "timeData_") with
    | Some date => date <? cutoff
    | None => false
    end
  else false.

(** [chrome.storage.local.remove(keys)] *)
Definition storage_remove (keys : list string) (st : gmap string Value)
  : gmap string Value :=
  foldr delete st keys.

(** [cleanupOldData()] run when the clock reads [now]. *)
Definition cleanupOldData (now : Z) (w : World) : World :=
  let all := storage w in
  let cutoff := setDate_back now 30 in
  let toRemove := List.filter (is_old cutoff) (Object_keys all) in
  match toRemove with
  | [] => w
  | _ :: _ =>
      {| tracker := tracker w;
         storage := storage_remove toRemove all;
         outbox := outbox w |}
  end.

End Retention.

End Background.

(** ** The older copy of the background script *)
Module LegacyBackground.
Import JsString Storage.

Section Host.

Variable URL_hostname : string -> option string.

(** [getDomain(url)] of the copy: [replace] takes the string ['www.'], not
    an anchored pattern. *)
Definition getDomain (url : string) : string :=
  match URL_hostname url with
  | Some hostname => replace_with_empty hostname "www."
  | None => url
  end.

(** [stopTracking()] of the copy: the time is kept in milliseconds and
    saved when it exceeds 1000. (Its request body names the fields [domain]
    and [timeSpent]; the outbox keeps them as hostname and duration.) *)
Definition stopTracking (now : Z) (today : string) (w : Background.World)
  : Background.World :=
  match Background.currentTab (Background.tracker w),
        Background.startTime (Background.tracker w) with
  | Some tab, Some start =>
      if negb (Background.isTracking (Background.tracker w)) || (start =? 0) then w
      else
        let timeSpent := now - start in
        let domain := getDomain (Background.url_of tab) in
        let w' :=
          if timeSpent >? 1000
          then Background.saveTimeEntry now today domain timeSpent
                 (Background.url_of tab) (Background.tab_title tab) w
          else w in
        Background.with_tracker Background.idle w'
  | _, _ => w
  end.

End Host.

End LegacyBackground.

(** ** dashboard.js *)
Module Dashboard.
Import JsString.

Definition productiveKeywords : list string :=
  [ "docs"; "learn"; "education"; "tutorial"; "course"; "study"; "work" ].

Definition unproductiveKeywords : list string :=
  [ "social"; "entertainment"; "game"; "video"; "stream" ].

(** What [categorizeWebsite] returns: a string, or the member of
    [Object.prototype] that the lookup found. *)
Inductive Result : Type :=
| Str (s : string)
| PrototypeMember (name : string).

(** The keyword part of [categorizeWebsite]. *)
Definition keyword_category (hostname : string) : string :=
  let lowerHostname := toLowerCase hostname in
  if some (fun keyword => includes lowerHostname keyword) productiveKeywords
  then "productive"
  else if some (fun keyword => includes lowerHostname keyword) unproductiveKeywords
  then "unproductive"
  else "neutral".

(** [categorizeWebsite(hostname)] over [this.websiteCategories], an object
    from hostnames to category names. An empty string is falsy. *)
Definition categorizeWebsite (websiteCategories : gmap string string)
    (hostname : string) : Result :=
  match JsObject.get websiteCategories hostname with
  | JsObject.Own v =>
      if String.eqb v "" then Str (keyword_category hostname) else Str v
  | JsObject.Inherited name => PrototypeMember name
  | JsObject.Undefined => Str (keyword_category hostname)
  end.

End Dashboard.

(** ** popup.js: the category editor *)
Module Popup.
Import Storage.

(** [categories[name]] *)
Definition field (c : Categories) (name : string) : option (list string) :=
  if String.eqb name "productive" then Some (productive c)
  else if String.eqb name "unproductive" then Some (unproductive c)
  else None.

(** [categories[name] = l] for one of the two arrays. *)
Definition set_field (c : Categories) (name : string) (l : list string)
  : Categories :=
  if String.eqb name "productive"
  then {| productive := l; unproductive := unproductive c |}
  else {| productive := productive c; unproductive := l |}.

(** [l.filter(site => site !== website)] *)
Definition without (website : string) (l : list string) : list string :=
  List.filter (fun site => negb (String.eqb site website)) l.

(** [l.includes(website)] *)
Definition has (website : string) (l : list string) : bool :=
  existsb (String.eqb website) l.

(** [result.categories || { productive: [], unproductive: [] }]; [None]
    when the item is not a category object, so that reading one of its
    arrays throws. *)
Definition load (st : gmap string Value) : option Categories :=
  match st !! "categories" with
  | None => Some {| productive := []; unproductive := [] |}
  | Some (VCategories c) => Some c
  | Some _ => None
  end.

(** The [updateCategories] message: the background stores the object. *)
Definition updateCategories (c : Categories) (st : gmap string Value)
  : gmap string Value :=
  <["categories" := VCategories c]> st.

(** [addWebsiteToCategory(category, website)]. An exception leaves the
    store as it was. *)
Definition addWebsiteToCategory (category website : string)
    (st : gmap string Value) : gmap string Value :=
  match load st with
  | None => st
  | Some categories =>
      let otherCategory :=
        if String.eqb category "productive" then "unproductive" else "productive" in
      match field categories otherCategory with
      | None => st
      | Some other =>
          let categories1 := set_field categories otherCategory (without website other) in
          match field categories1 category with
          | None => st
          | Some own =>
              let categories2 :=
                if has website own then categories1
                else set_field categories1 category (own ++ [website]) in
              updateCategories categories2 st
          end
      end
  end.

(** [removeWebsiteFromCategory(category, website)] *)
Definition removeWebsiteFromCategory (category website : string)
    (st : gmap string Value) : gmap string Value :=
  match load st with
  | None => st
  | Some categories =>
      match field categories category with
      | None => st
      | Some own =>
          updateCategories (set_field categories category (without website own)) st
      end
  end.

End Popup.

(** ** routes/api.js over the TimeEntry model *)
Module Api.
Import JsString.

(** A document of the [time_entries] collection (models/timeEntry.js). *)
Record TimeEntry : Type := mkTimeEntry {
  hostname : string;
  url : option string;
  title : option string;
  duration : Z;
  category : string;
  timestamp : Z;
  userId : option string
}.

Inductive Response (A : Type) : Type :=
| Ok (body : A)          (* 200 *)
| Created (body : A)     (* 201 *)
| BadRequest             (* 400, 'Validation failed' *)
| ServerError.           (* 500 *)
Arguments Ok {A} body.
Arguments Created {A} body.
Arguments BadRequest {A}.
Arguments ServerError {A}.

Definition categoryNames : list string :=
  [ "productive"; "unproductive"; "neutral" ].

(** *** The validators of express-validator *)

Definition digit_value (c : ascii) : option Z :=
  let n := nat_of_ascii c in
  if (Nat.leb 48 n && Nat.leb n 57)%bool then Some (Z.of_nat n - 48) else None.

Fixpoint digits_value (acc : Z) (s : string) : option Z :=
  match s with
  | EmptyString => Some acc
  | String c rest =>
      match digit_value c with
      | Some d => digits_value (10 * acc + d) rest
      | None => None
      end
  end.

(** The integer a string denotes when it matches [^[-+]?[0-9]+$], the
    pattern of [isInt]; it is also what [Number] and [parseInt] make of such
    a string. *)
Definition int_of_string (s : string) : option Z :=
  match s with
  | EmptyString => None
  | String "+" EmptyString => None
  | String "-" EmptyString => None
  | String "+" rest => digits_value 0 rest
  | String "-" rest => Z.opp <$> digits_value 0 rest
  | _ => digits_value 0 s
  end.

(** [isInt({ min })] and [isInt({ min, max })] *)
Definition isInt_min (min : Z) (s : string) : bool :=
  match int_of_string s with
  | Some z => min <=? z
  | None => false
  end.

Definition isInt_min_max (min max : Z) (s : string) : bool :=
  match int_of_string s with
  | Some z => (min <=? z) && (z <=? max)
  | None => false
  end.

(** [isIn(list)] *)
Definition isIn (l : list string) (s : string) : bool :=
  existsb (String.eqb s) l.

(** [query(name).optional().check]: an absent parameter passes. *)
Definition optional {A : Type} (check : A -> bool) (v : option A) : bool :=
  match v with
  | Some x => check x
  | None => true
  end.

(** A non-empty string is truthy. *)
Definition truthy (v : option string) : option string :=
  match v with
  | Some s => if String.eqb s "" then None else Some s
  | None => None
  end.

Definition is_space (c : ascii) : bool :=
  let n := nat_of_ascii c in
  (Nat.leb 9 n && Nat.leb n 13)%bool || Nat.eqb n 32.

Fixpoint trimStart (s : string) : string :=
  match s with
  | EmptyString => EmptyString
  | String c rest => if is_space c then trimStart rest else s
  end.

(** [s.trim()] on ASCII text. *)
Definition trim (s : string) : string :=
  String.rev (trimStart (String.rev (trimStart s))).

(** *** Query filters *)

Record Filter : Type := mkFilter {
  f_userId : option string;
  f_gte : option Z;
  f_lte : option Z;
  f_hostname : option string;
  f_category : option string
}.

Section Host.

(** [isISO8601] of the validator library. *)
Variable isISO8601 : string -> bool.

(** [new Date(s).getTime()]; [None] for an Invalid Date. *)
Variable Date_parse : string -> option Z.

(** The database's case-insensitive match of a pattern on a string
    ([{ $regex: pattern, $options: 'i' }]). *)
Variable regex_test_i : string -> string -> bool.

Definition matches (f : Filter) (e : TimeEntry) : bool :=
  match f_userId f with
  | Some u => bool_decide (userId e = Some u)
  | None => true
  end
  && match f_gte f with Some t => t <=? timestamp e | None => true end
  && match f_lte f with Some t => timestamp e <=? t | None => true end
  && match f_hostname f with Some p => regex_test_i p (hostname e) | None => true end
  && match f_category f with Some c => String.eqb (category e) c | None => true end.

(** The bound [new Date(s)] gives to the filter; an Invalid Date makes the
    query fail when it is cast. *)
Definition date_bound (v : option string) : option (option Z) :=
  match truthy v with
  | None => Some None
  | Some s =>
      match Date_parse s with
      | Some t => Some (Some t)
      | None => None
      end
  end.

(** The [filter] object both GET handlers build from the query; [None]
    when a date bound is an Invalid Date, which fails the query. *)
Definition build_filter (userId startDate endDate hostname category : option string)
  : option Filter :=
  match date_bound startDate, date_bound endDate with
  | Some gte, Some lte =>
      Some {| f_userId := truthy userId; f_gte := gte; f_lte := lte;
              f_hostname := truthy hostname; f_category := truthy category |}
  | _, _ => None
  end.

(** *** GET /api/time-entries *)

Record ListQuery : Type := mkListQuery {
  q_page : option string;
  q_limit : option string;
  q_startDate : option string;
  q_endDate : option string;
  q_hostname : option string;
  q_category : option string;
  q_userId : option string
}.

Record Pagination : Type := mkPagination {
  currentPage : Z;
  totalPages : Z;
  totalEntries : Z;
  hasNext : bool;
  hasPrev : bool
}.

Record ListBody : Type := mkListBody {
  entries : list TimeEntry;
  pagination : Pagination
}.

(** The validation chain of the route ([hostname] only has to be a
    string, which a parameter is). *)
Definition list_validators (q : ListQuery) : bool :=
  optional (isInt_min 1) (q_page q)
  && optional (isInt_min_max 1 100) (q_limit q)
  && optional isISO8601 (q_startDate q)
  && optional isISO8601 (q_endDate q)
  && optional (isIn categoryNames) (q_category q).

(** The number a validated parameter stands for, or the default. *)
Definition number_or (default : Z) (v : option string) : Z :=
  match v with
  | Some s => match int_of_string s with Some z => z | None => default end
  | None => default
  end.

(** [sort({ timestamp: -1 })] *)
Definition newer_first (a b : TimeEntry) : Prop := timestamp b <= timestamp a.

#[export] Instance newer_first_dec (a b : TimeEntry) : Decision (newer_first a b) :=
  Z_le_dec (timestamp b) (timestamp a).

Definition sort_timestamp_desc (l : list TimeEntry) : list TimeEntry :=
  merge_sort newer_first l.

(** [Math.ceil(total / limit)] for a count and a limit of 1 to 100. The
    quotient is a double; for a count below 2^46 it is within 1/128 of the
    exact quotient, which is an integer or at least 1/100 away from one, so
    its ceiling is the integer ceiling. *)
Definition Math_ceil_div (total limit : Z) : Z := - ((- total) / limit).

Definition list_time_entries (q : ListQuery) (db : list TimeEntry)
  : Response ListBody :=
  if negb (list_validators q) then BadRequest
  else
    let page := number_or 1 (q_page q) in
    let limit := number_or 50 (q_limit q) in
    match build_filter (q_userId q) (q_startDate q) (q_endDate q)
            (q_hostname q) (q_category q) with
    | Some filter =>
        let skip := (page - 1) * limit in
        let found := List.filter (matches filter) db in
        let entries :=
          take (Z.to_nat limit) (drop (Z.to_nat skip) (sort_timestamp_desc found)) in
        let total := Z.of_nat (length found) in
        Ok {| entries := entries;
              pagination :=
                {| currentPage := page;
                   totalPages := Math_ceil_div total limit;
                   totalEntries := total;
                   hasNext := skip + Z.of_nat (length entries) <? total;
                   hasPrev := page >? 1 |} |}
    | None => ServerError
    end.

(** *** POST /api/time-entries/bulk *)

(** A JSON value of a request body, as far as the validators tell them
    apart. *)
Inductive JsValue : Type :=
| JUndefined
| JNull
| JString (s : string)
| JInt (z : Z)
| JOther.

Record RawEntry : Type := mkRawEntry {
  r_hostname : JsValue;
  r_duration : JsValue;
  r_category : JsValue;
  r_userId : JsValue;
  r_timestamp : JsValue;
  r_url : option string;
  r_title : option string
}.

(** [isString().notEmpty()] *)
Definition isString_notEmpty (v : JsValue) : bool :=
  match v with
  | JString s => negb (String.eqb s "")
  | _ => false
  end.

(** [isInt({ min: 1 })] on a body field: a number is tested through its
    decimal text. *)
Definition body_isInt_min (min : Z) (v : JsValue) : bool :=
  match v with
  | JInt z => min <=? z
  | JString s => isInt_min min s
  | _ => false
  end.

Definition body_isIn (l : list string) (v : JsValue) : bool :=
  match v with
  | JString s => isIn l s
  | _ => false
  end.

Definition optional_isString (v : JsValue) : bool :=
  match v with
  | JUndefined | JString _ => true
  | _ => false
  end.

Definition optional_isISO8601 (v : JsValue) : bool :=
  match v with
  | JUndefined => true
  | JString s => isISO8601 s
  | _ => false
  end.

Definition entry_validators (r : RawEntry) : bool :=
  isString_notEmpty (r_hostname r)
  && body_isInt_min 1 (r_duration r)
  && body_isIn categoryNames (r_category r)
  && optional_isString (r_userId r)
  && optional_isISO8601 (r_timestamp r).

(** [isArray({ min: 1, max: 100 })] and the per-element chains; [None] is a
    body whose [entries] is not an array. *)
Definition bulk_validators (body_entries : option (list RawEntry)) : bool :=
  match body_entries with
  | None => false
  | Some l =>
      (1 <=? Z.of_nat (length l)) && (Z.of_nat (length l) <=? 100)
      && forallb entry_validators l
  end.

(** The document [insertMany] makes of a validated element, when the schema
    accepts it: the hostname is trimmed and still required, the timestamp
    must be a date. *)
Definition to_document (now : Z) (r : RawEntry) : option TimeEntry :=
  match r_hostname r, r_duration r, r_category r with
  | JString h, d, JString c =>
      let dur :=
        match d with
        | JInt z => Some z
        | JString s => int_of_string s
        | _ => None
        end in
      let ts :=
        match r_timestamp r with
        | JString s => if String.eqb s "" then Some now else Date_parse s
        | _ => Some now
        end in
      match dur, ts with
      | Some z, Some t =>
          if String.eqb (trim h) "" then None
          else Some {| hostname := trim h;
                       url := trim <$> r_url r;
                       title := trim <$> r_title r;
                       duration := z;
                       category := c;
                       timestamp := t;
                       userId := match r_userId r with
                                 | JString u => Some u
                                 | _ => None
                                 end |}
      | _, _ => None
      end
  | _, _, _ => None
  end.

(** [insertMany]: every document is validated before any is written. *)
Fixpoint to_documents (now : Z) (l : list RawEntry) : option (list TimeEntry) :=
  match l with
  | [] => Some []
  | r :: rest =>
      match to_document now r, to_documents now rest with
      | Some d, Some ds => Some (d :: ds)
      | _, _ => None
      end
  end.

(** The handler: the response and the collection afterwards. *)
Definition bulk_create (now : Z) (body_entries : option (list RawEntry))
    (db : list TimeEntry) : Response (list TimeEntry) * list TimeEntry :=
  if negb (bulk_validators body_entries) then (BadRequest, db)
  else
    match body_entries with
    | None => (BadRequest, db)
    | Some l =>
        match to_documents now l with
        | Some savedEntries => (Created savedEntries, db ++ savedEntries)
        | None => (ServerError, db)
        end
    end.

(** *** GET /api/analytics/summary *)

Record SummaryQuery : Type := mkSummaryQuery {
  s_startDate : option string;
  s_endDate : option string;
  s_userId : option string
}.

(** One group of the [$group]/[$project] stages. *)
Record CategoryGroup : Type := mkCategoryGroup {
  g_category : string;
  g_totalTime : Z;
  g_entryCount : Z;
  g_uniqueWebsiteCount : Z
}.

Definition sum_durations (l : list TimeEntry) : Z :=
  foldr (fun e acc => duration e + acc) 0 l.

(** [$group] by category, one group per category present, in the order of
    first appearance. *)
Definition group_by_category (l : list TimeEntry) : list CategoryGroup :=
  map (fun c =>
         let members := List.filter (fun e => String.eqb (category e) c) l in
         {| g_category := c;
            g_totalTime := sum_durations members;
            g_entryCount := Z.of_nat (length members);
            g_uniqueWebsiteCount :=
              Z.of_nat (length (remove_dups (map hostname members))) |})
      (remove_dups (map category l)).

(** The accumulators of the [forEach] over the groups. *)
Record Totals : Type := mkTotals {
  t_totalTime : Z;
  t_productiveTime : Z;
  t_categoryBreakdown : gmap string CategoryGroup
}.

Definition accumulate (acc : Totals) (item : CategoryGroup) : Totals :=
  {| t_totalTime := t_totalTime acc + g_totalTime item;
     t_productiveTime :=
       if String.eqb (g_category item) "productive" then g_totalTime item
       else t_productiveTime acc;
     t_categoryBreakdown := <[g_category item := item]> (t_categoryBreakdown acc) |}.

(** A total as a JavaScript number: the double of the same value, for a
    total from 0 to 2^53. *)
Definition to_number (z : Z) : float := PrimFloat.of_uint63 (Uint63.of_Z z).

(** [Math.round(x)]: the integer nearest to [x], a tie going up; [None] for
    NaN and the infinities. *)
Definition Math_round (x : float) : option Z :=
  match Prim2SF x with
  | S754_zero _ => Some 0
  | S754_finite s m e =>
      let n := if s then Z.neg m else Z.pos m in
      if 0 <=? e then Some (n * 2 ^ e)
      else Some ((2 * n + 2 ^ (- e)) / 2 ^ (- e + 1))
  | S754_infinity _ | S754_nan => None
  end.

(** [totalTime > 0 ? Math.round((productiveTime / totalTime) * 100) : 0] *)
Definition productivityScore (productiveTime totalTime : Z) : option Z :=
  if totalTime >? 0
  then Math_round
         (PrimFloat.mul
            (PrimFloat.div (to_number productiveTime) (to_number totalTime))
            (to_number 100))
  else Some 0.

Record Summary : Type := mkSummary {
  totalTime : Z;
  productiveTime : Z;
  score : option Z;
  categoryBreakdown : gmap string CategoryGroup
}.

Definition summary_validators (q : SummaryQuery) : bool :=
  optional isISO8601 (s_startDate q) && optional isISO8601 (s_endDate q).

(** The summary part of the response (the top-websites list is a second
    pipeline and is not part of this record). *)
Definition analytics_summary (q : SummaryQuery) (db : list TimeEntry)
  : Response Summary :=
  if negb (summary_validators q) then BadRequest
  else
    match build_filter (s_userId q) (s_startDate q) (s_endDate q) None None with
    | Some filter =>
        let summary := group_by_category (List.filter (matches filter) db) in
        let totals :=
          fold_left accumulate summary
            {| t_totalTime := 0; t_productiveTime := 0; t_categoryBreakdown := ∅ |} in
        Ok {| totalTime := t_totalTime totals;
              productiveTime := t_productiveTime totals;
              score := productivityScore (t_productiveTime totals) (t_totalTime totals);
              categoryBreakdown := t_categoryBreakdown totals |}
    | None => ServerError
    end.

End Host.

End Api.

(** ** A concrete host, for running the handlers on examples

    The scripts take the URL parser, the date parser and the database's
    pattern matcher from their host. The theorems hold for every host; the
    examples run on the fragments below. *)
Module ExampleHost.
Import JsString.

Definition is_alpha (c : ascii) : bool :=
  let n := nat_of_ascii c in
  (Nat.leb 65 n && Nat.leb n 90)%bool || (Nat.leb 97 n && Nat.leb n 122)%bool.

Definition is_digit (c : ascii) : bool :=
  let n := nat_of_ascii c in (Nat.leb 48 n && Nat.leb n 57)%bool.

Definition is_scheme_char (c : ascii) : bool :=
  is_alpha c || is_digit c || bool_decide (c ∈ ["+"; "-"; "."]%char).

Definition is_host_char (c : ascii) : bool :=
  is_alpha c || is_digit c || bool_decide (c ∈ ["-"; "."; "_"]%char).

Fixpoint all_chars (p : ascii -> bool) (s : string) : bool :=
  match s with
  | EmptyString => true
  | String c rest => p c && all_chars p rest
  end.

(** [s] cut at the first character satisfying [stop]. *)
Fixpoint split_at (stop : ascii -> bool) (s : string) : string * string :=
  match s with
  | EmptyString => (EmptyString, EmptyString)
  | String c rest =>
      if stop c then (EmptyString, s)
      else let '(a, b) := split_at stop rest in (String c a, b)
  end.

(** The hostname of [scheme://host[:port][/path][?query][#fragment]], in
    lower case, and the empty hostname of [scheme:path]; [None] without a
    scheme or with a host outside letters, digits, [-], [.] and [_]. The
    host's parser accepts more (user info, IPv6 literals), never less. *)
Definition URL_hostname (u : string) : option string :=
  let '(scheme, rest) := split_at (fun c => Ascii.eqb c ":") u in
  match scheme, rest with
  | String c0 _, String _ after =>
      if is_alpha c0 && all_chars is_scheme_char scheme then
        if String.prefix "//" after then
          let '(authority, _) :=
            split_at (fun c => bool_decide (c ∈ ["/"; "?"; "#"]%char))
                     (slice_from 2 after) in
          let '(host, port) := split_at (fun c => Ascii.eqb c ":") authority in
          if negb (String.eqb host "") && all_chars is_host_char host
             && all_chars is_digit (slice_from 1 port)
          then Some (toLowerCase host)
          else None
        else Some EmptyString
      else None
  | _, _ => None
  end.

Definition two_digits (a b : ascii) : option Z :=
  match Api.digit_value a, Api.digit_value b with
  | Some x, Some y => Some (10 * x + y)
  | _, _ => None
  end.

Definition is_leap (y : Z) : bool :=
  ((y mod 4 =? 0) && negb (y mod 100 =? 0)) || (y mod 400 =? 0).

Definition days_in_month (y m : Z) : Z :=
  if m =? 2 then (if is_leap y then 29 else 28)
  else if bool_decide (m ∈ [4; 6; 9; 11]) then 30 else 31.

(** Days from 1970-01-01 to the civil date [y]-[m]-[d]. *)
Definition days_from_civil (y m d : Z) : Z :=
  let y' := if m <=? 2 then y - 1 else y in
  let era := y' / 400 in
  let yoe := y' - era * 400 in
  let doy := (153 * (if 2 <? m then m - 3 else m + 9) + 2) / 5 + d - 1 in
  let doe := yoe * 365 + yoe / 4 - yoe / 100 + doy in
  era * 146097 + doe - 719468.

(** [new Date(s).getTime()] for a calendar date written [YYYY-MM-DD] (read
    as midnight UTC); every other text is an Invalid Date here. *)
Definition Date_parse (s : string) : option Z :=
  match s with
  | String y1 (String y2 (String y3 (String y4 (String "-"
      (String m1 (String m2 (String "-" (String d1 (String d2 EmptyString))))))))) =>
      match two_digits y1 y2, two_digits y3 y4, two_digits m1 m2, two_digits d1 d2 with
      | Some yh, Some yl, Some m, Some d =>
          let y := 100 * yh + yl in
          if (1 <=? m) && (m <=? 12) && (1 <=? d) && (d <=? days_in_month y m)
          then Some (days_from_civil y m d * 86400000)
          else None
      | _, _, _, _ => None
      end
  | _ => None
  end.

Definition isISO8601 (s : string) : bool :=
  match Date_parse s with Some _ => true | None => false end.

(** [d.setDate(d.getDate() - n)] in a zone without clock changes. *)
Definition setDate_back (now n : Z) : Z := now - n * 86400000.

(** The match of a pattern without metacharacters: a case-insensitive
    substring test. *)
Definition regex_test_i (pattern s : string) : bool :=
  includes (toLowerCase s) (toLowerCase pattern).

End ExampleHost.

(** ** background.js: the message listener *)
Module Messages.
Import Storage Background.

(** A message by its [action]; [OtherAction] is any action the listener has
    no branch for (the content script's [userActivity], [urlChanged] and
    [pageLoaded] among them). *)
Inductive Request : Type :=
| GetCurrentStatus
| GetTimeData (date : string)
| UpdateCategories (categories : Value)
| OtherAction (action : string).

Inductive Response : Type :=
| Status (isTracking : bool) (currentSite : option string) (startTime : option Z)
| TimeData (d : gmap string SiteStats)
| Success
| NoResponse.

(** [getTimeDataForDate(date)]: the day bucket, or an empty object. *)
Definition getTimeDataForDate (date : string) (st : gmap string Value)
  : gmap string SiteStats :=
  match st !! ("timeData_" +:+ date) with
  | Some (VTimeData d) => d
  | _ => ∅
  end.

Section Host.

Variable URL_hostname : string -> option string.

(** The listener of [chrome.runtime.onMessage]: the response sent and the
    world afterwards. *)
Definition onMessage (request : Request) (w : World) : Response * World :=
  match request with
  | GetCurrentStatus =>
      (Status (isTracking (tracker w))
              (match currentTab (tracker w) with
               | Some tab => Some (getDomain URL_hostname (url_of tab))
               | None => None
               end)
              (startTime (tracker w)),
       w)
  | GetTimeData date => (TimeData (getTimeDataForDate date (storage w)), w)
  | UpdateCategories categories =>
      (Success,
       {| tracker := tracker w;
          storage := <["categories" := categories]> (storage w);
          outbox := outbox w |})
  | OtherAction _ => (NoResponse, w)
  end.

End Host.

End Messages.

(** ** The content script: activity and navigation reports *)
Module Content.

(** The script's variables: the time of the last activity, the activity
    flag, and the last URL seen by the observer. *)
Record State : Type := mkState {
  lastActivity : Z;
  isUserActive : bool;
  currentUrl : string
}.

(** The messages sent to the background. *)
Inductive Message : Type :=
| UserActivity (active : bool) (timestamp : Z)
| UrlChanged (url : string) (timestamp : Z)
| PageLoaded (url title : string) (timestamp : Z).

(** What the page delivers to the script. *)
Inductive Event : Type :=
| Activity                         (* mousemove, keydown, scroll, click, touchstart *)
| InactivityCheck                  (* the 30 s interval *)
| VisibilityChange (hidden : bool) (* document.hidden at the event *)
| Mutation (href : string).        (* the observer fires; window.location.href *)

(** [notifyBackgroundOfActivity(active)] *)
Definition notifyBackgroundOfActivity (active : bool) (now : Z) : list Message :=
  [ UserActivity active now ].

(** [trackActivity()] *)
Definition trackActivity (now : Z) (s : State) : State * list Message :=
  if negb (isUserActive s)
  then ({| lastActivity := now; isUserActive := true; currentUrl := currentUrl s |},
        notifyBackgroundOfActivity true now)
  else ({| lastActivity := now; isUserActive := isUserActive s;
           currentUrl := currentUrl s |}, []).

Definition inactiveThreshold : Z := 30000.

(** The callback of [setInterval]. *)
Definition inactivityCheck (now : Z) (s : State) : State * list Message :=
  let timeSinceLastActivity := now - lastActivity s in
  if (timeSinceLastActivity >? inactiveThreshold) && isUserActive s
  then ({| lastActivity := lastActivity s; isUserActive := false;
           currentUrl := currentUrl s |},
        notifyBackgroundOfActivity false now)
  else (s, []).

(** The [visibilitychange] listener. *)
Definition visibilitychange (hidden : bool) (now : Z) (s : State)
  : State * list Message :=
  if hidden
  then ({| lastActivity := lastActivity s; isUserActive := false;
           currentUrl := currentUrl s |},
        notifyBackgroundOfActivity false now)
  else ({| lastActivity := now; isUserActive := true; currentUrl := currentUrl s |},
        notifyBackgroundOfActivity true now).

(** The callback of the [MutationObserver]. *)
Definition mutation (href : string) (now : Z) (s : State) : State * list Message :=
  if negb (String.eqb href (currentUrl s))
  then ({| lastActivity := lastActivity s; isUserActive := isUserActive s;
           currentUrl := href |},
        [ UrlChanged href now ])
  else (s, []).

(** The script is loaded in a page: its variables are initialised and the
    page is announced. *)
Definition load (href title : string) (now : Z) : State * list Message :=
  ({| lastActivity := now; isUserActive := true; currentUrl := href |},
   [ PageLoaded href title now ]).

Definition handle (now : Z) (e : Event) (s : State) : State * list Message :=
  match e with
  | Activity => trackActivity now s
  | InactivityCheck => inactivityCheck now s
  | VisibilityChange hidden => visibilitychange hidden now s
  | Mutation href => mutation href now s
  end.

End Content.

(** ** The popup script: what it computes for display *)
Module PopupView.
Import Storage.

(** [formatTime(milliseconds)]. [%] is the remainder that takes the sign
    of the dividend. *)
Definition formatTime (milliseconds : Z) : string :=
  let seconds := milliseconds / 1000 in
  let minutes := seconds / 60 in
  let hours := minutes / 60 in
  if hours >? 0
  then pretty hours +:+ "h " +:+ pretty (Z.rem minutes 60) +:+ "m"
  else if minutes >? 0
  then pretty minutes +:+ "m " +:+ pretty (Z.rem seconds 60) +:+ "s"
  else pretty seconds +:+ "s".

(** [websites.sort((a, b) => b.totalTime - a.totalTime)]: the sort keeps
    the order of entries with equal times. *)
Fixpoint insert_by_time (x : string * SiteStats)
    (sorted : list (string * SiteStats)) : list (string * SiteStats) :=
  match sorted with
  | [] => [x]
  | y :: rest =>
      if totalTime x.2 <? totalTime y.2 then y :: insert_by_time x rest
      else x :: y :: rest
  end.

Definition sort_by_time (l : list (string * SiteStats)) : list (string * SiteStats) :=
  foldr insert_by_time [] l.

(** The accumulators of the [map] callback in [displayTodayData]. *)
Record TodayTotals : Type := mkTodayTotals {
  productiveTime : Z;
  unproductiveTime : Z;
  totalTime_ : Z
}.

Definition add_site (acc : TodayTotals) (site : string * SiteStats) : TodayTotals :=
  {| totalTime_ := totalTime_ acc + totalTime site.2;
     productiveTime :=
       if String.eqb (category site.2) "productive"
       then productiveTime acc + totalTime site.2 else productiveTime acc;
     unproductiveTime :=
       if String.eqb (category site.2) "productive" then unproductiveTime acc
       else if String.eqb (category site.2) "unproductive"
       then unproductiveTime acc + totalTime site.2 else unproductiveTime acc |}.

(** What the popup shows for the day. *)
Record TodayView : Type := mkTodayView {
  shownProductive : string;
  shownUnproductive : string;
  productivityScore : option Z;
  websiteList : list (string * SiteStats)
}.

(** [displayTodayData(timeData)] with [displayWebsiteList]; [sites] is
    [Object.entries(timeData)]. *)
Definition displayTodayData (sites : list (string * SiteStats)) : TodayView :=
  let totals :=
    fold_left add_site sites
      {| productiveTime := 0; unproductiveTime := 0; totalTime_ := 0 |} in
  let websites := sort_by_time sites in
  {| shownProductive := formatTime (productiveTime totals);
     shownUnproductive := formatTime (unproductiveTime totals);
     productivityScore :=
       Api.productivityScore (productiveTime totals) (totalTime_ totals);
     websiteList := take 5 websites |}.

(** [clearAllData()]: [chrome.storage.local.clear()] when the user
    confirms. *)
Definition clearAllData (confirmed : bool) (st : gmap string Value)
  : gmap string Value :=
  if confirmed then ∅ else st.

End PopupView.

(** ** dashboard.js: the figures of the statistics panel *)
Module DashboardStats.
Import Dashboard.

(** An element of [timeEntries]. *)
Record Entry : Type := mkEntry {
  hostname : string;
  duration : Z;
  date : string
}.

(** [this.categorizeWebsite(entry.hostname) === name] *)
Definition has_category (websiteCategories : gmap string string)
    (e : Entry) (name : string) : bool :=
  match categorizeWebsite websiteCategories (hostname e) with
  | Str s => String.eqb s name
  | PrototypeMember _ => false
  end.

(** The three sums of [renderPieChart]. *)
Record Slices : Type := mkSlices {
  productiveTime : Z;
  unproductiveTime : Z;
  neutralTime : Z
}.

Definition add_slice (wc : gmap string string) (acc : Slices) (e : Entry) : Slices :=
  if has_category wc e "productive"
  then {| productiveTime := productiveTime acc + duration e;
          unproductiveTime := unproductiveTime acc;
          neutralTime := neutralTime acc |}
  else if has_category wc e "unproductive"
  then {| productiveTime := productiveTime acc;
          unproductiveTime := unproductiveTime acc + duration e;
          neutralTime := neutralTime acc |}
  else {| productiveTime := productiveTime acc;
          unproductiveTime := unproductiveTime acc;
          neutralTime := neutralTime acc + duration e |}.

Definition pieData (wc : gmap string string) (filteredEntries : list Entry) : Slices :=
  fold_left (add_slice wc) filteredEntries
    {| productiveTime := 0; unproductiveTime := 0; neutralTime := 0 |}.

(** The figures of [updateStats]. *)
Record Stats : Type := mkStats {
  totalProductiveTime : Z;
  totalUnproductiveTime : Z;
  productivityScore : option Z;
  uniqueWebsites : Z
}.

Definition add_stat (wc : gmap string string) (acc : Z * Z) (e : Entry) : Z * Z :=
  if has_category wc e "productive" then (acc.1 + duration e, acc.2)
  else if has_category wc e "unproductive" then (acc.1, acc.2 + duration e)
  else acc.

Definition updateStats (wc : gmap string string) (filteredEntries : list Entry)
  : Stats :=
  let totals := fold_left (add_stat wc) filteredEntries (0, 0) in
  let totalTime := totals.1 + totals.2 in
  {| totalProductiveTime := totals.1;
     totalUnproductiveTime := totals.2;
     productivityScore := Api.productivityScore totals.1 totalTime;
     uniqueWebsites :=
       Z.of_nat (length (remove_dups (map hostname filteredEntries))) |}.

(** [formatTime(seconds)] *)
Definition formatTime (seconds : Z) : string :=
  let hrs := seconds / 3600 in
  let mins := Z.rem seconds 3600 / 60 in
  pretty hrs +:+ "h " +:+ pretty mins +:+ "m".

End DashboardStats.

(** ** routes/api.js: the other routes *)
Module ApiRoutes.
Import JsString Api.

Section Host.

Variable isISO8601 : string -> bool.
Variable Date_parse : string -> option Z.
Variable regex_test_i : string -> string -> bool.

(** [isURL] of the validator library. *)
Variable isURL : string -> bool.

(** The hexadecimal text of the ObjectId a string casts to; [None] when the
    cast fails. *)
Variable ObjectId_cast : string -> option string.

(** *** POST /api/time-entries *)

Definition create_validators (r : RawEntry) : bool :=
  isString_notEmpty (r_hostname r)
  && body_isInt_min 1 (r_duration r)
  && body_isIn categoryNames (r_category r)
  && optional_isString (r_userId r)
  && optional isURL (r_url r).

(** [{ ...req.body, timestamp: new Date() }] *)
Definition stamped (r : RawEntry) : RawEntry :=
  {| r_hostname := r_hostname r; r_duration := r_duration r;
     r_category := r_category r; r_userId := r_userId r;
     r_timestamp := JUndefined; r_url := r_url r; r_title := r_title r |}.

Definition create_entry (now : Z) (body : RawEntry) (db : list TimeEntry)
  : Response TimeEntry * list TimeEntry :=
  if negb (create_validators body) then (BadRequest, db)
  else
    match to_document Date_parse now (stamped body) with
    | Some timeEntry => (Created timeEntry, db ++ [timeEntry])
    | None => (ServerError, db)
    end.

(** *** DELETE /api/time-entries/:id *)

Inductive ItemResponse : Type :=
| ItemOk (entry : TimeEntry)   (* 200 *)
| ItemNotFound                 (* 404 *)
| ItemError.                   (* 500 *)

(** [findByIdAndDelete(id)] on documents stored with their [_id]. *)
Fixpoint remove_by_id (oid : string) (c : list (string * TimeEntry))
  : option (TimeEntry * list (string * TimeEntry)) :=
  match c with
  | [] => None
  | d :: rest =>
      if String.eqb d.1 oid then Some (d.2, rest)
      else match remove_by_id oid rest with
           | Some (e, rest') => Some (e, d :: rest')
           | None => None
           end
  end.

Definition delete_entry (id : string) (c : list (string * TimeEntry))
  : ItemResponse * list (string * TimeEntry) :=
  match ObjectId_cast id with
  | None => (ItemError, c)
  | Some oid =>
      match remove_by_id oid c with
      | Some (timeEntry, c') => (ItemOk timeEntry, c')
      | None => (ItemNotFound, c)
      end
  end.

(** *** The top websites of GET /api/analytics/summary *)

Record TopWebsite : Type := mkTopWebsite {
  tw_hostname : string;
  tw_category : string;
  tw_totalTime : Z;
  tw_entryCount : Z
}.

Definition same_site (h c : string) (e : TimeEntry) : bool :=
  String.eqb (hostname e) h && String.eqb (category e) c.

(** [$group] by hostname and category. The engine leaves the order of the
    groups open; they are listed here in the order of first appearance. *)
Definition group_by_site (l : list TimeEntry) : list TopWebsite :=
  map (fun k : string * string =>
         {| tw_hostname := k.1;
            tw_category := k.2;
            tw_totalTime := sum_durations (List.filter (same_site k.1 k.2) l);
            tw_entryCount := Z.of_nat (length (List.filter (same_site k.1 k.2) l)) |})
      (remove_dups (map (fun e => (hostname e, category e)) l)).

(** [$sort: { totalTime: -1 }] *)
Definition longer_first (a b : TopWebsite) : Prop := tw_totalTime b <= tw_totalTime a.

#[export] Instance longer_first_dec (a b : TopWebsite) : Decision (longer_first a b) :=
  Z_le_dec (tw_totalTime b) (tw_totalTime a).

(** The second pipeline of the handler, on the documents the filter
    matched: [$group], [$sort], [$limit: 10]. *)
Definition topWebsites (found : list TimeEntry) : list TopWebsite :=
  take 10 (merge_sort longer_first (group_by_site found)).

Definition analytics_topWebsites (q : SummaryQuery) (db : list TimeEntry)
  : Response (list TopWebsite) :=
  if negb (summary_validators isISO8601 q) then BadRequest
  else
    match build_filter Date_parse (s_userId q) (s_startDate q) (s_endDate q)
            None None with
    | Some filter => Ok (topWebsites (List.filter (matches regex_test_i filter) db))
    | None => ServerError
    end.

End Host.

End ApiRoutes.

(* ===================================================================== *)
(** * Part II: properties                                                  *)
(* ===================================================================== *)

(** ** Strings *)

(** [s] contains [sub]: [sub] stands somewhere inside [s]. *)
Definition contains (s sub : string) : Prop :=
  ∃ before after : string, s = before +:+ (sub +:+ after).

Lemma app_String (c : ascii) (s r : string) :
  String c s +:+ r = String c (s +:+ r).
Proof. reflexivity. Qed.

Lemma app_Empty (r : string) : EmptyString +:+ r = r.
Proof. reflexivity. Qed.

Ltac str_simpl := rewrite ?app_String, ?app_Empty in *.

Lemma prefix_iff (p s : string) :
  String.prefix p s = true ↔ ∃ r, s = p +:+ r.
Proof.
  revert s. induction p as [|a p IH]; intros s.
  - destruct s; simpl; split; eauto.
  - destruct s as [|b s]; simpl.
    + split; [discriminate | intros [r Hr]; discriminate].
    + destruct (Ascii.ascii_dec a b) as [->|Hne].
      * rewrite IH. split; intros [r Hr]; exists r; str_simpl; congruence.
      * split; [discriminate | intros [r Hr]; str_simpl; congruence].
Qed.

Lemma includes_Empty (sub : string) :
  JsString.includes EmptyString sub = String.prefix sub EmptyString.
Proof. reflexivity. Qed.

Lemma includes_String (c : ascii) (s sub : string) :
  JsString.includes (String c s) sub
  = String.prefix sub (String c s) || JsString.includes s sub.
Proof. reflexivity. Qed.

Lemma includes_iff (s sub : string) :
  JsString.includes s sub = true ↔ contains s sub.
Proof.
  unfold contains.
  induction s as [|c s IH]; [rewrite includes_Empty | rewrite includes_String].
  - rewrite prefix_iff. split.
    + intros [r Hr]. exists EmptyString, r. exact Hr.
    + intros ([|? ?] & b & Hb); str_simpl; [eauto | discriminate].
  - rewrite orb_true_iff, IH, prefix_iff. split.
    + intros [[r Hr] | (a & b & Hab)].
      * exists EmptyString, r. exact Hr.
      * exists (String c a), b. str_simpl. congruence.
    + intros ([|c' a] & b & Hab); str_simpl.
      * left. eauto.
      * right. exists a, b. congruence.
Qed.

Lemma app_Empty_r (s : string) : s +:+ EmptyString = s.
Proof. induction s as [|c s IH]; str_simpl; congruence. Qed.

Lemma contains_self (s : string) : contains s s.
Proof. exists EmptyString, EmptyString. by rewrite app_Empty, app_Empty_r. Qed.

Lemma some_iff {A : Type} (p : A → bool) (l : list A) :
  JsString.some p l = true ↔ ∃ x, x ∈ l ∧ p x = true.
Proof.
  unfold JsString.some. rewrite existsb_exists.
  split; intros (x & Hx & Hp); exists x; split; auto; by apply list_elem_of_In.
Qed.

Lemma some_includes_iff (h : string) (l : list string) :
  JsString.some (fun site => JsString.includes h site) l = true
  ↔ ∃ site, site ∈ l ∧ contains h site.
Proof.
  rewrite some_iff. split; intros (x & Hx & Hp); exists x; split; auto;
    by apply includes_iff.
Qed.

Lemma some_includes_false (h : string) (l : list string) :
  JsString.some (fun site => JsString.includes h site) l = false
  ↔ ∀ site, site ∈ l → ¬ contains h site.
Proof.
  rewrite <- not_true_iff_false, some_includes_iff. split.
  - intros Hn site Hin Hc. apply Hn. eauto.
  - intros Hall (site & Hin & Hc). exact (Hall site Hin Hc).
Qed.

Lemma slice_from_app (p r : string) :
  JsString.slice_from (String.length p) (p +:+ r) = r.
Proof.
  induction p as [|c p IH]; str_simpl; simpl; [by destruct r | exact IH].
Qed.

Lemma replace_with_empty_eq (s pat : string) :
  JsString.replace_with_empty s pat
  = if String.prefix pat s then JsString.slice_from (String.length pat) s
    else match s with
         | EmptyString => EmptyString
         | String c rest => String c (JsString.replace_with_empty rest pat)
         end.
Proof. destruct s; reflexivity. Qed.

Lemma replace_with_empty_prefix (p r : string) :
  JsString.replace_with_empty (p +:+ r) p = r.
Proof.
  rewrite replace_with_empty_eq.
  rewrite (proj2 (prefix_iff p (p +:+ r))) by eauto.
  apply slice_from_app.
Qed.

(** ** Classification by the two lists (background.js) *)
Section Classifier.
Import Storage Background.

Lemma classify_productive (cfg : Categories) (h : string) :
  (∃ site, site ∈ productive cfg ∧ contains h site) →
  classify cfg h = "productive".
Proof.
  intros H. unfold classify.
  by rewrite (proj2 (some_includes_iff h (productive cfg)) H).
Qed.

Lemma classify_unproductive (cfg : Categories) (h : string) :
  (∀ site, site ∈ productive cfg → ¬ contains h site) →
  (∃ site, site ∈ unproductive cfg ∧ contains h site) →
  classify cfg h = "unproductive".
Proof.
  intros Hp Hu. unfold classify.
  rewrite (proj2 (some_includes_false h (productive cfg)) Hp).
  by rewrite (proj2 (some_includes_iff h (unproductive cfg)) Hu).
Qed.

Lemma classify_neutral (cfg : Categories) (h : string) :
  (∀ site, site ∈ productive cfg → ¬ contains h site) →
  (∀ site, site ∈ unproductive cfg → ¬ contains h site) →
  classify cfg h = "neutral".
Proof.
  intros Hp Hu. unfold classify.
  rewrite (proj2 (some_includes_false h (productive cfg)) Hp).
  by rewrite (proj2 (some_includes_false h (unproductive cfg)) Hu).
Qed.

(** A configuration in which one site name ends another. *)
Definition box_categories : Categories :=
  {| productive := [ "box.com" ]; unproductive := [ "xbox.com" ] |}.

(** C4, the symmetric half fails: [xbox.com] is listed as unproductive and
    is not an element of the productive list, the two lists share no
    element, and yet the classifier answers productive, because the
    productive entry [box.com] is a substring of the hostname. *)
Lemma unproductive_member_classified_productive :
  "xbox.com" ∈ unproductive box_categories
  ∧ ("xbox.com" ∉ productive box_categories)
  ∧ (∀ x, x ∈ productive box_categories → x ∉ unproductive box_categories)
  ∧ getWebsiteCategory "xbox.com" {[ "categories" := VCategories box_categories ]}
    = "productive".
Proof.
  split; [| split; [| split]].
  - simpl. apply list_elem_of_In. simpl. auto.
  - simpl. intros H. apply list_elem_of_In in H. simpl in H.
    destruct H as [H | []]. discriminate.
  - intros x Hx Hx'. simpl in *.
    apply list_elem_of_In in Hx. apply list_elem_of_In in Hx'. simpl in *.
    destruct Hx as [<- | []]. destruct Hx' as [H | []]. discriminate.
  - reflexivity.
Qed.

(** C4 (amended). Productive membership is tested first and by substring:
    a hostname containing a productive entry is productive whatever the
    unproductive list holds; failing that, a hostname containing an
    unproductive entry is unproductive. Hence a hostname in both lists is
    productive, a hostname in the productive list is productive, and a
    hostname in the unproductive list is unproductive provided it contains
    no productive entry. *)
Theorem getWebsiteCategory_membership_order
    (st : gmap string Value) (cfg : Categories) (h : string) :
  st !! "categories" = Some (VCategories cfg) →
  ((∃ site, site ∈ productive cfg ∧ contains h site) →
     getWebsiteCategory h st = "productive")
  ∧ ((∀ site, site ∈ productive cfg → ¬ contains h site) →
     (∃ site, site ∈ unproductive cfg ∧ contains h site) →
     getWebsiteCategory h st = "unproductive")
  ∧ (h ∈ productive cfg → h ∈ unproductive cfg →
     getWebsiteCategory h st = "productive")
  ∧ (h ∈ productive cfg → h ∉ unproductive cfg →
     getWebsiteCategory h st = "productive")
  ∧ (h ∈ unproductive cfg →
     (∀ site, site ∈ productive cfg → ¬ contains h site) →
     getWebsiteCategory h st = "unproductive").
Proof.
  intros Hst. unfold getWebsiteCategory. rewrite Hst.
  repeat split.
  - apply classify_productive.
  - apply classify_unproductive.
  - intros Hp _. apply classify_productive. eauto using contains_self.
  - intros Hp _. apply classify_productive. eauto using contains_self.
  - intros Hu Hp. apply classify_unproductive; eauto using contains_self.
Qed.

Lemma getWebsiteCategory_membership_order_witness :
  getWebsiteCategory "github.com"
    {[ "categories" := VCategories defaultCategories ]} = "productive"
  ∧ getWebsiteCategory "www.youtube.com"
      {[ "categories" := VCategories defaultCategories ]} = "unproductive".
Proof.
  pose proof (getWebsiteCategory_membership_order
                {[ "categories" := VCategories defaultCategories ]}
                defaultCategories "github.com" eq_refl) as (_ & _ & _ & H4 & _).
  pose proof (getWebsiteCategory_membership_order
                {[ "categories" := VCategories defaultCategories ]}
                defaultCategories "www.youtube.com" eq_refl) as (_ & H2 & _).
  split.
  - apply H4.
    + apply list_elem_of_In. simpl. auto.
    + intros H. apply list_elem_of_In in H. simpl in H.
      repeat (destruct H as [H | H]; [discriminate |]). exact H.
  - apply H2.
    + intros site Hs Hc. apply includes_iff in Hc.
      apply list_elem_of_In in Hs. simpl in Hs.
      repeat (destruct Hs as [<- | Hs]; [vm_compute in Hc; discriminate |]).
      exact Hs.
    + exists "youtube.com". split.
      * apply list_elem_of_In. simpl. tauto.
      * apply includes_iff. reflexivity.
Defined.

End Classifier.

(** ** The keyword fallback (dashboard.js) and its absence (background.js) *)
Section KeywordFallback.
Import Storage Background Dashboard.

(** [websiteCategories[hostname]] is falsy: there is no such key, own or
    inherited, or the key holds the empty string. *)
Definition lookup_falsy (websiteCategories : gmap string string)
    (hostname : string) : Prop :=
  (websiteCategories !! hostname = None
   ∧ hostname ∉ JsObject.Object_prototype_keys)
  ∨ websiteCategories !! hostname = Some "".

Lemma categorizeWebsite_falsy (wc : gmap string string) (h : string) :
  lookup_falsy wc h → categorizeWebsite wc h = Str (keyword_category h).
Proof.
  unfold categorizeWebsite, JsObject.get, JsObject.inherited.
  intros [[Hnone Hproto] | Hempty].
  - rewrite Hnone. by rewrite bool_decide_eq_false_2.
  - by rewrite Hempty.
Qed.

Lemma keyword_category_cases (h : string) :
  ((∃ kw, kw ∈ productiveKeywords ∧ contains (JsString.toLowerCase h) kw) →
     keyword_category h = "productive")
  ∧ ((∀ kw, kw ∈ productiveKeywords → ¬ contains (JsString.toLowerCase h) kw) →
     (∃ kw, kw ∈ unproductiveKeywords ∧ contains (JsString.toLowerCase h) kw) →
     keyword_category h = "unproductive")
  ∧ ((∀ kw, kw ∈ productiveKeywords → ¬ contains (JsString.toLowerCase h) kw) →
     (∀ kw, kw ∈ unproductiveKeywords → ¬ contains (JsString.toLowerCase h) kw) →
     keyword_category h = "neutral").
Proof.
  unfold keyword_category. repeat split.
  - intros H. by rewrite (proj2 (some_includes_iff _ _) H).
  - intros Hp Hu. rewrite (proj2 (some_includes_false _ _) Hp).
    by rewrite (proj2 (some_includes_iff _ _) Hu).
  - intros Hp Hu. rewrite (proj2 (some_includes_false _ _) Hp).
    by rewrite (proj2 (some_includes_false _ _) Hu).
Qed.

(** C3 fails on the classifier that reads the two lists: [docs.example.org]
    is in neither default list and contains the keyword [docs], yet
    [getWebsiteCategory] answers neutral. *)
Lemma getWebsiteCategory_ignores_keywords :
  ("docs.example.org" ∉ productive defaultCategories)
  ∧ ("docs.example.org" ∉ unproductive defaultCategories)
  ∧ JsString.includes (JsString.toLowerCase "docs.example.org") "docs" = true
  ∧ getWebsiteCategory "docs.example.org"
      {[ "categories" := VCategories defaultCategories ]} = "neutral".
Proof.
  repeat split; try reflexivity.
  - intros H. apply list_elem_of_In in H. simpl in H.
    repeat (destruct H as [H | H]; [discriminate |]). exact H.
  - intros H. apply list_elem_of_In in H. simpl in H.
    repeat (destruct H as [H | H]; [discriminate |]). exact H.
Qed.

(** C3 (amended). [getWebsiteCategory], the classifier over the productive
    and unproductive lists, has no keyword fallback: a hostname containing
    no entry of either list is neutral. The fallback is
    [categorizeWebsite]'s: when the exact-key lookup of the hostname in the
    dashboard's category object is falsy, the hostname is lower-cased and
    is productive if it contains one of docs, learn, education, tutorial,
    course, study, work; else unproductive if it contains one of social,
    entertainment, game, video, stream; else neutral. *)
Theorem keyword_fallback_only_in_dashboard
    (st : gmap string Value) (cfg : Categories)
    (wc : gmap string string) (h : string) :
  (st !! "categories" = Some (VCategories cfg) →
   (∀ site, site ∈ productive cfg ++ unproductive cfg → ¬ contains h site) →
   getWebsiteCategory h st = "neutral")
  ∧ (lookup_falsy wc h →
     ((∃ kw, kw ∈ [ "docs"; "learn"; "education"; "tutorial"; "course";
                    "study"; "work" ]
             ∧ contains (JsString.toLowerCase h) kw) →
        categorizeWebsite wc h = Str "productive")
     ∧ ((∀ kw, kw ∈ [ "docs"; "learn"; "education"; "tutorial"; "course";
                      "study"; "work" ]
               → ¬ contains (JsString.toLowerCase h) kw) →
        (∃ kw, kw ∈ [ "social"; "entertainment"; "game"; "video"; "stream" ]
               ∧ contains (JsString.toLowerCase h) kw) →
        categorizeWebsite wc h = Str "unproductive")
     ∧ ((∀ kw, kw ∈ [ "docs"; "learn"; "education"; "tutorial"; "course";
                      "study"; "work" ]
               → ¬ contains (JsString.toLowerCase h) kw) →
        (∀ kw, kw ∈ [ "social"; "entertainment"; "game"; "video"; "stream" ]
               → ¬ contains (JsString.toLowerCase h) kw) →
        categorizeWebsite wc h = Str "neutral")).
Proof.
  split.
  - intros Hst Hnone. unfold getWebsiteCategory. rewrite Hst.
    apply classify_neutral; intros site Hs; apply Hnone;
      apply elem_of_app; auto.
  - intros Hfalsy. rewrite (categorizeWebsite_falsy wc h Hfalsy).
    destruct (keyword_category_cases h) as (Hp & Hu & Hn).
    repeat split.
    + intros H. f_equal. by apply Hp.
    + intros H1 H2. f_equal. by apply Hu.
    + intros H1 H2. f_equal. by apply Hn.
Qed.

Lemma keyword_fallback_only_in_dashboard_witness :
  categorizeWebsite ∅ "Docs.Example.ORG" = Str "productive"
  ∧ categorizeWebsite {[ "github.com" := "productive" ]} "livestream.tv"
    = Str "unproductive".
Proof.
  assert (F1 : lookup_falsy ∅ "Docs.Example.ORG").
  { left. split; [reflexivity |].
    intros H. apply list_elem_of_In in H. simpl in H.
    repeat (destruct H as [H | H]; [discriminate |]). exact H. }
  assert (F2 : lookup_falsy {[ "github.com" := "productive" ]} "livestream.tv").
  { left. split; [reflexivity |].
    intros H. apply list_elem_of_In in H. simpl in H.
    repeat (destruct H as [H | H]; [discriminate |]). exact H. }
  pose proof (keyword_fallback_only_in_dashboard ∅ defaultCategories
                ∅ "Docs.Example.ORG") as [_ H1].
  pose proof (keyword_fallback_only_in_dashboard ∅ defaultCategories
                {[ "github.com" := "productive" ]} "livestream.tv") as [_ H2].
  destruct (H1 F1) as (Hp & _). destruct (H2 F2) as (_ & Hu & _).
  split.
  - apply Hp. exists "docs". split.
    + apply list_elem_of_In. simpl. auto.
    + apply includes_iff. reflexivity.
  - apply Hu.
    + intros kw Hkw Hc. apply includes_iff in Hc.
      apply list_elem_of_In in Hkw. simpl in Hkw.
      repeat (destruct Hkw as [<- | Hkw]; [vm_compute in Hc; discriminate |]).
      exact Hkw.
    + exists "stream". split.
      * apply list_elem_of_In. simpl. tauto.
      * apply includes_iff. reflexivity.
Defined.

End KeywordFallback.

(** ** The tracking state machine (background.js) *)
Section Tracking.
Import Storage Background.

Variable URL_hostname : string -> option string.

(** A tracker with a session open on [tab] since [start]. *)
Definition tracking (tab : Tab) (start : Z) (w : World) : Prop :=
  tracker w = {| currentTab := Some tab; startTime := Some start; isTracking := true |}
  ∧ start ≠ 0.

Lemma stopTracking_tracking (now : Z) (today : string) (w : World)
    (tab : Tab) (start : Z) :
  tracking tab start w →
  stopTracking URL_hostname now today w
  = with_tracker idle
      (if (now - start) / 1000 >? 1
       then saveTimeEntry now today (getDomain URL_hostname (url_of tab))
              ((now - start) / 1000) (url_of tab) (tab_title tab) w
       else w).
Proof.
  intros [Ht Hz]. unfold stopTracking. rewrite Ht. simpl.
  by rewrite (proj2 (Z.eqb_neq start 0) Hz).
Qed.


(** What closing a session adds to the outbox: one entry carrying the whole
    seconds, when these exceed 1, that is from 2000 ms on. *)
Lemma stopTracking_outbox (now : Z) (today : string) (w : World)
    (tab : Tab) (start : Z) :
  tracking tab start w →
  (2000 <= now - start →
     ∃ e, outbox (stopTracking URL_hostname now today w) = outbox w ++ [e]
          ∧ be_duration e = (now - start) / 1000
          ∧ be_hostname e = getDomain URL_hostname (url_of tab))
  ∧ (now - start < 2000 →
     outbox (stopTracking URL_hostname now today w) = outbox w
     ∧ storage (stopTracking URL_hostname now today w) = storage w).
Proof.
  intros Ht. rewrite (stopTracking_tracking now today w tab start Ht). split.
  - intros Hge.
    assert (Hq : 2 <= (now - start) / 1000) by (apply Z.div_le_lower_bound; lia).
    destruct ((now - start) / 1000 >? 1) eqn:E; [| lia].
    simpl. eexists. split; [reflexivity |]. by simpl.
  - intros Hlt.
    assert (Hq : (now - start) / 1000 < 2) by (apply Z.div_lt_upper_bound; lia).
    destruct ((now - start) / 1000 >? 1) eqn:E; [lia |]. by simpl.
Qed.

(** A session on github.com opened at 1 700 000 000 000 ms. *)
Definition github_session : World :=
  {| tracker :=
       {| currentTab := Some {| tab_id := 7;
                                tab_url := Some "https://github.com/";
                                tab_title := Some "GitHub" |};
          startTime := Some 1700000000000;
          isTracking := true |};
     storage := {[ "categories" := VCategories defaultCategories ]};
     outbox := [] |}.

(** C1 at the failing input. The session is closed 1500 ms after it was
    opened: its duration in whole seconds is 1, and [stopTracking] records
    nothing and posts nothing, where the claim has an entry emitted for
    every duration of at least one second. *)
Theorem stopTracking_drops_one_second_session :
  (1700000001500 - 1700000000000) / 1000 = 1
  ∧ stopTracking URL_hostname 1700000001500 "2023-11-14" github_session
    = {| tracker := idle;
         storage := {[ "categories" := VCategories defaultCategories ]};
         outbox := [] |}.
Proof. split; reflexivity. Qed.

(** The older copy of the script does save that session. *)
Lemma legacy_stopTracking_saves_1500ms :
  ∃ e, outbox (LegacyBackground.stopTracking URL_hostname 1700000001500
                 "2023-11-14" github_session) = [e]
       ∧ be_duration e = 1500.
Proof. eexists. split; reflexivity. Qed.

(** *** Malformed URLs *)





End Tracking.



(** ** The two copies of [getDomain] *)
Section DomainExtraction.

Variable URL_hostname : string -> option string.

Lemma replace_with_empty_absent (s pat : string) :
  JsString.includes s pat = false → JsString.replace_with_empty s pat = s.
Proof.
  induction s as [|c s IH]; rewrite replace_with_empty_eq.
  - rewrite includes_Empty. by intros ->.
  - rewrite includes_String, orb_false_iff. intros [-> Hs]. by rewrite IH.
Qed.

Lemma slice_from_length (p r : string) :
  String.length (p +:+ r) = (String.length p + String.length r)%nat.
Proof. induction p as [|c p IH]; str_simpl; simpl; [done | by rewrite IH]. Qed.

Lemma replace_with_empty_length (s pat : string) :
  JsString.includes s pat = true →
  (String.length (JsString.replace_with_empty s pat) + String.length pat
   = String.length s)%nat.
Proof.
  induction s as [|c s IH]; rewrite replace_with_empty_eq.
  - rewrite includes_Empty. intros Hp. rewrite Hp.
    apply prefix_iff in Hp as [r Hr]. rewrite Hr at 1.
    rewrite slice_from_app, Hr, slice_from_length. lia.
  - rewrite includes_String.
    destruct (String.prefix pat (String c s)) eqn:Hp.
    + intros _. apply prefix_iff in Hp as [r Hr]. rewrite Hr at 1.
      rewrite slice_from_app, Hr, slice_from_length. lia.
    + simpl. intros Hs. specialize (IH Hs). lia.
Qed.

(** The anchored and the unanchored removal of ["www."] give the same text
    exactly when the text starts with ["www."] or does not contain it. *)
Lemma www_removals_agree_iff (h : string) :
  JsString.replace_leading_www h = JsString.replace_with_empty h "www."
  ↔ JsString.startsWith h "www." = true ∨ JsString.includes h "www." = false.
Proof.
  unfold JsString.replace_leading_www, JsString.startsWith.
  rewrite (replace_with_empty_eq h "www.").
  destruct (String.prefix "www." h) eqn:Hp.
  - split; [by left | reflexivity].
  - destruct (JsString.includes h "www.") eqn:Hi.
    + split; [| intros [? | ?]; discriminate].
      intros Heq. exfalso.
      pose proof (replace_with_empty_length h "www." Hi) as Hlen.
      rewrite (replace_with_empty_eq h "www."), Hp, <- Heq in Hlen.
      simpl in Hlen. lia.
    + split; [by right |]. intros _.
      pose proof (replace_with_empty_absent h "www." Hi) as Habs.
      rewrite (replace_with_empty_eq h "www."), Hp in Habs. by rewrite Habs.
Qed.

(** The two copies agree on a URL exactly when the parser rejects it or
    its hostname starts with ["www."] or has no ["www."] at all. *)
Lemma getDomain_copies_agree_iff (u : string) :
  Background.getDomain URL_hostname u = LegacyBackground.getDomain URL_hostname u
  ↔ match URL_hostname u with
    | None => True
    | Some h =>
        JsString.startsWith h "www." = true ∨ JsString.includes h "www." = false
    end.
Proof.
  unfold Background.getDomain, LegacyBackground.getDomain.
  destruct (URL_hostname u) as [h|]; [apply www_removals_agree_iff | done].
Qed.

(** C10 at the failing input. On a URL whose hostname has ["www."] as an
    inner label the two copies disagree: the service worker keeps the
    hostname, the older copy cuts the label out. *)
Theorem getDomain_copies_differ :
  URL_hostname "http://docs.www.example.com/" = Some "docs.www.example.com" →
  Background.getDomain URL_hostname "http://docs.www.example.com/"
  = "docs.www.example.com"
  ∧ LegacyBackground.getDomain URL_hostname "http://docs.www.example.com/"
    = "docs.example.com".
Proof.
  intros H. unfold Background.getDomain, LegacyBackground.getDomain.
  rewrite H. split; reflexivity.
Qed.

End DomainExtraction.

Lemma getDomain_copies_differ_witness :
  Background.getDomain ExampleHost.URL_hostname "http://docs.www.example.com/"
  = "docs.www.example.com"
  ∧ LegacyBackground.getDomain ExampleHost.URL_hostname
      "http://docs.www.example.com/"
    = "docs.example.com".
Proof. apply (getDomain_copies_differ ExampleHost.URL_hostname). reflexivity. Defined.

(** ** The retention sweep (background.js) *)
Section RetentionSweep.
Import Storage Background.

Variable Date_parse : string -> option Z.
Variable setDate_back : Z -> Z -> Z.

(** [key] names a day bucket whose date lies before [cutoff]. *)
Definition expired (cutoff : Z) (key : string) : Prop :=
  ∃ (day : string) (date : Z),
    key = "timeData_" +:+ day ∧ Date_parse day = Some date ∧ date < cutoff.

Lemma is_old_iff (cutoff : Z) (key : string) :
  is_old Date_parse cutoff key = true ↔ expired cutoff key.
Proof.
  unfold is_old, expired, JsString.startsWith. split.
  - destruct (String.prefix "timeData_" key) eqn:Hp; [| discriminate].
    apply prefix_iff in Hp as [day ->].
    rewrite replace_with_empty_prefix.
    destruct (Date_parse day) as [date|] eqn:Hd; [| discriminate].
    intros Hlt. exists day, date. repeat split; auto. lia.
  - intros (day & date & -> & Hd & Hlt).
    rewrite (proj2 (prefix_iff "timeData_" ("timeData_" +:+ day))) by eauto.
    rewrite replace_with_empty_prefix, Hd. lia.
Qed.

Lemma lookup_storage_remove (keys : list string) (st : gmap string Value)
    (k : string) :
  storage_remove keys st !! k = if bool_decide (k ∈ keys) then None else st !! k.
Proof.
  unfold storage_remove. induction keys as [|k' keys IH]; simpl.
  - done.
  - destruct (decide (k' = k)) as [->|Hne].
    + rewrite lookup_delete_eq. rewrite bool_decide_eq_true_2; [done | left].
    + rewrite lookup_delete_ne by done. rewrite IH.
      destruct (decide (k ∈ keys)) as [Hin|Hnin].
      * rewrite !bool_decide_eq_true_2; [done | by right | done].
      * rewrite !bool_decide_eq_false_2; [done | | done].
        intros Hin. apply elem_of_cons in Hin as [-> | Hin]; done.
Qed.

Lemma elem_of_Object_keys (st : gmap string Value) (k : string) :
  k ∈ Object_keys st ↔ is_Some (st !! k).
Proof.
  unfold Object_keys. rewrite list_elem_of_fmap. split.
  - intros ([k' v] & -> & Hin). apply elem_of_map_to_list in Hin. simpl. eauto.
  - intros [v Hv]. exists (k, v). split; [done | by apply elem_of_map_to_list].
Qed.

(** The store after the sweep, key by key. *)
Lemma cleanupOldData_lookup (now : Z) (w : World) (k : string) :
  storage (cleanupOldData Date_parse setDate_back now w) !! k
  = if is_old Date_parse (setDate_back now 30) k then None else storage w !! k.
Proof.
  unfold cleanupOldData.
  set (toRemove := List.filter _ _).
  assert (Hin : ∀ k, k ∈ toRemove
                ↔ is_old Date_parse (setDate_back now 30) k = true
                  ∧ is_Some (storage w !! k)).
  { intros k0. unfold toRemove. rewrite list_elem_of_In, filter_In.
    rewrite <- list_elem_of_In, elem_of_Object_keys. tauto. }
  assert (Hgen : storage_remove toRemove (storage w) !! k
                 = if is_old Date_parse (setDate_back now 30) k then None
                   else storage w !! k).
  { rewrite lookup_storage_remove.
    destruct (is_old Date_parse (setDate_back now 30) k) eqn:Hold.
    - destruct (storage w !! k) as [v|] eqn:Hk.
      + rewrite bool_decide_eq_true_2; [done |]. apply Hin. eauto.
      + by destruct (bool_decide _).
    - rewrite bool_decide_eq_false_2; [done |]. intros [Hold' _]%Hin. congruence. }
  destruct toRemove as [|k0 rest] eqn:E; [| exact Hgen].
  simpl. rewrite <- Hgen. by rewrite lookup_storage_remove.
Qed.

(** C6. The sweep run at [now] deletes the day buckets whose date lies
    before the cutoff, thirty days before [now], and only those: every
    other key keeps its value, the tracker and the outbox are untouched,
    and a second run changes nothing more. *)
Theorem cleanupOldData_purges_exactly (now : Z) (w : World) :
  (∀ key, expired (setDate_back now 30) key →
          storage (cleanupOldData Date_parse setDate_back now w) !! key = None)
  ∧ (∀ key, ¬ expired (setDate_back now 30) key →
            storage (cleanupOldData Date_parse setDate_back now w) !! key
            = storage w !! key)
  ∧ tracker (cleanupOldData Date_parse setDate_back now w) = tracker w
  ∧ outbox (cleanupOldData Date_parse setDate_back now w) = outbox w
  ∧ cleanupOldData Date_parse setDate_back now
      (cleanupOldData Date_parse setDate_back now w)
    = cleanupOldData Date_parse setDate_back now w.
Proof.
  assert (Ht : ∀ w0, tracker (cleanupOldData Date_parse setDate_back now w0)
                     = tracker w0).
  { intros w0. unfold cleanupOldData. by destruct (List.filter _ _). }
  assert (Ho : ∀ w0, outbox (cleanupOldData Date_parse setDate_back now w0)
                     = outbox w0).
  { intros w0. unfold cleanupOldData. by destruct (List.filter _ _). }
  repeat split; auto.
  - intros key Hexp. rewrite cleanupOldData_lookup.
    by rewrite (proj2 (is_old_iff _ _) Hexp).
  - intros key Hexp. rewrite cleanupOldData_lookup.
    destruct (is_old Date_parse (setDate_back now 30) key) eqn:Hold; [| done].
    by apply is_old_iff in Hold.
  - set (w1 := cleanupOldData Date_parse setDate_back now w).
    assert (Hst : storage (cleanupOldData Date_parse setDate_back now w1)
                  = storage w1).
    { apply map_eq. intros k. rewrite cleanupOldData_lookup.
      destruct (is_old Date_parse (setDate_back now 30) k) eqn:Hold; [| done].
      unfold w1. rewrite cleanupOldData_lookup. by rewrite Hold. }
    specialize (Ht w1). specialize (Ho w1).
    destruct (cleanupOldData Date_parse setDate_back now w1) as [t s o].
    destruct w1 as [t1 s1 o1]. simpl in *. congruence.
Qed.

End RetentionSweep.

(** A store with four day buckets, a key that is no date, and the
    categories. The sweep runs on 2024-03-15 at noon UTC, so the cutoff is
    2024-02-14 at noon: the bucket of 2024-02-14, dated at midnight, is
    before it, the bucket of 2024-02-15 is not. *)
Definition sample_store : gmap string Storage.Value :=
  {[ "categories" := Storage.VCategories Background.defaultCategories;
     "timeData_2024-01-01" := Storage.VTimeData ∅;
     "timeData_2024-02-14" := Storage.VTimeData ∅;
     "timeData_2024-02-15" := Storage.VTimeData ∅;
     "timeData_2024-03-01" := Storage.VTimeData ∅;
     "timeData_backup" := Storage.VOther "{}" ]}.

Lemma cleanupOldData_sample :
  Background.storage
    (Background.cleanupOldData ExampleHost.Date_parse ExampleHost.setDate_back
       1710504000000 (Background.mkWorld Background.idle sample_store []))
  = {[ "categories" := Storage.VCategories Background.defaultCategories;
       "timeData_2024-02-15" := Storage.VTimeData ∅;
       "timeData_2024-03-01" := Storage.VTimeData ∅;
       "timeData_backup" := Storage.VOther "{}" ]}.
Proof. vm_compute. reflexivity. Qed.

Lemma cleanupOldData_purges_exactly_witness :
  Background.storage
    (Background.cleanupOldData ExampleHost.Date_parse ExampleHost.setDate_back
       1710504000000 (Background.mkWorld Background.idle sample_store []))
    !! "timeData_2024-01-01" = None
  ∧ Background.storage
      (Background.cleanupOldData ExampleHost.Date_parse ExampleHost.setDate_back
         1710504000000 (Background.mkWorld Background.idle sample_store []))
      !! "timeData_2024-03-01" = Some (Storage.VTimeData ∅).
Proof.
  destruct (cleanupOldData_purges_exactly ExampleHost.Date_parse
              ExampleHost.setDate_back 1710504000000
              (Background.mkWorld Background.idle sample_store []))
    as (Hgone & Hkept & _).
  split.
  - apply Hgone. exists "2024-01-01", 1704067200000.
    split; [reflexivity | split; [reflexivity | reflexivity]].
  - rewrite Hkept; [reflexivity |].
    intros (day & date & Hkey & Hdate & Hlt).
    assert (Hday : day = "2024-03-01") by (vm_compute in Hkey; congruence).
    subst day. vm_compute in Hdate. injection Hdate as <-.
    vm_compute in Hlt. discriminate.
Defined.

(** ** The category editor (popup.js) *)
Section CategoryEditor.
Import Storage Popup.

(** No site name is in both arrays. *)
Definition disjoint_categories (c : Categories) : Prop :=
  ∀ x, x ∈ productive c → x ∉ unproductive c.

(** The stored category object, when there is one, is disjoint. *)
Definition stored_disjoint (st : gmap string Value) : Prop :=
  ∀ c, st !! "categories" = Some (VCategories c) → disjoint_categories c.

Lemma elem_of_without (website x : string) (l : list string) :
  x ∈ without website l ↔ x ∈ l ∧ x ≠ website.
Proof.
  unfold without. rewrite list_elem_of_In, filter_In, <- list_elem_of_In.
  rewrite negb_true_iff, String.eqb_neq. tauto.
Qed.

Lemma has_iff (website : string) (l : list string) :
  has website l = true ↔ website ∈ l.
Proof.
  unfold has. rewrite existsb_exists. split.
  - intros (x & Hx & Heq). apply String.eqb_eq in Heq as ->.
    by apply list_elem_of_In.
  - intros Hin. exists website. split; [by apply list_elem_of_In |].
    apply String.eqb_refl.
Qed.

Lemma load_disjoint (st : gmap string Value) (c : Categories) :
  stored_disjoint st → load st = Some c → disjoint_categories c.
Proof.
  unfold load. intros Hst.
  destruct (st !! "categories") as [[c0| |]|] eqn:E; try discriminate.
  - intros [= <-]. by apply Hst.
  - intros [= <-] x Hx. simpl in Hx. by apply elem_of_nil in Hx.
Qed.

Lemma stored_disjoint_update (c : Categories) (st : gmap string Value) :
  disjoint_categories c → stored_disjoint (updateCategories c st).
Proof.
  intros Hc c' Hc'. unfold updateCategories in Hc'.
  rewrite lookup_insert_eq in Hc'. by injection Hc' as <-.
Qed.

(** The category object [addWebsiteToCategory] stores for one of the two
    category names. *)
Lemma addWebsiteToCategory_productive (website : string)
    (st : gmap string Value) (c : Categories) :
  load st = Some c →
  addWebsiteToCategory "productive" website st
  = updateCategories
      {| productive := if has website (productive c) then productive c
                       else productive c ++ [website];
         unproductive := without website (unproductive c) |} st.
Proof.
  intros Hload. unfold addWebsiteToCategory. rewrite Hload. simpl.
  by destruct (has website (productive c)).
Qed.

Lemma addWebsiteToCategory_unproductive (website : string)
    (st : gmap string Value) (c : Categories) :
  load st = Some c →
  addWebsiteToCategory "unproductive" website st
  = updateCategories
      {| productive := without website (productive c);
         unproductive := if has website (unproductive c) then unproductive c
                         else unproductive c ++ [website] |} st.
Proof.
  intros Hload. unfold addWebsiteToCategory. rewrite Hload. simpl.
  by destruct (has website (unproductive c)).
Qed.

Lemma addWebsiteToCategory_other (category website : string)
    (st : gmap string Value) :
  category ≠ "productive" → category ≠ "unproductive" →
  addWebsiteToCategory category website st = st.
Proof.
  intros Hp Hu. unfold addWebsiteToCategory.
  destruct (load st) as [c|]; [| done].
  rewrite (proj2 (String.eqb_neq category "productive") Hp). simpl.
  unfold field.
  rewrite (proj2 (String.eqb_neq category "productive") Hp).
  by rewrite (proj2 (String.eqb_neq category "unproductive") Hu).
Qed.

Lemma add_keeps_disjoint (category website : string) (st : gmap string Value) :
  stored_disjoint st → stored_disjoint (addWebsiteToCategory category website st).
Proof.
  intros Hst.
  destruct (load st) as [c|] eqn:Hload.
  - pose proof (load_disjoint st c Hst Hload) as Hc.
    destruct (decide (category = "productive")) as [->|Hp];
      [| destruct (decide (category = "unproductive")) as [->|Hu]].
    + rewrite (addWebsiteToCategory_productive website st c Hload).
      apply stored_disjoint_update. intros x Hx Hx'. simpl in *.
      apply elem_of_without in Hx' as [Hx' Hne].
      destruct (has website (productive c)).
      * exact (Hc x Hx Hx').
      * apply elem_of_app in Hx as [Hx | Hx]; [exact (Hc x Hx Hx') |].
        apply list_elem_of_singleton in Hx. done.
    + rewrite (addWebsiteToCategory_unproductive website st c Hload).
      apply stored_disjoint_update. intros x Hx Hx'. simpl in *.
      apply elem_of_without in Hx as [Hx Hne].
      destruct (has website (unproductive c)).
      * exact (Hc x Hx Hx').
      * apply elem_of_app in Hx' as [Hx' | Hx']; [exact (Hc x Hx Hx') |].
        apply list_elem_of_singleton in Hx'. done.
    + by rewrite addWebsiteToCategory_other.
  - unfold addWebsiteToCategory. by rewrite Hload.
Qed.

Lemma remove_keeps_disjoint (category website : string) (st : gmap string Value) :
  stored_disjoint st →
  stored_disjoint (removeWebsiteFromCategory category website st).
Proof.
  intros Hst. unfold removeWebsiteFromCategory.
  destruct (load st) as [c|] eqn:Hload; [| done].
  pose proof (load_disjoint st c Hst Hload) as Hc.
  unfold field, set_field.
  destruct (String.eqb category "productive") eqn:Ep.
  - apply stored_disjoint_update. intros x Hx Hx'. simpl in *.
    apply elem_of_without in Hx as [Hx _]. exact (Hc x Hx Hx').
  - destruct (String.eqb category "unproductive") eqn:Eu; [| done].
    apply stored_disjoint_update. intros x Hx Hx'. simpl in *.
    apply elem_of_without in Hx' as [Hx' _]. exact (Hc x Hx Hx').
Qed.

(** C9. Starting from a store whose two category arrays are disjoint,
    [addWebsiteToCategory] and [removeWebsiteFromCategory] leave them
    disjoint; after an add to one of the two categories the site is in that
    array and not in the other. *)
Theorem category_edits_preserve_disjointness
    (category website : string) (st : gmap string Value) :
  stored_disjoint st →
  stored_disjoint (addWebsiteToCategory category website st)
  ∧ stored_disjoint (removeWebsiteFromCategory category website st)
  ∧ (∀ c, load st = Some c →
       (∃ c', addWebsiteToCategory "productive" website st !! "categories"
              = Some (VCategories c')
              ∧ website ∈ productive c' ∧ website ∉ unproductive c')
       ∧ (∃ c', addWebsiteToCategory "unproductive" website st !! "categories"
                = Some (VCategories c')
                ∧ website ∈ unproductive c' ∧ website ∉ productive c')).
Proof.
  intros Hst. split; [by apply add_keeps_disjoint |].
  split; [by apply remove_keeps_disjoint |].
  intros c Hload. split.
  - rewrite (addWebsiteToCategory_productive website st c Hload).
    eexists. split; [apply lookup_insert_eq |]. simpl. split.
    + destruct (has website (productive c)) eqn:Hhas.
      * by apply has_iff.
      * apply elem_of_app. right. by apply list_elem_of_singleton.
    + intros [_ Hne]%elem_of_without. done.
  - rewrite (addWebsiteToCategory_unproductive website st c Hload).
    eexists. split; [apply lookup_insert_eq |]. simpl. split.
    + destruct (has website (unproductive c)) eqn:Hhas.
      * by apply has_iff.
      * apply elem_of_app. right. by apply list_elem_of_singleton.
    + intros [_ Hne]%elem_of_without. done.
Qed.

End CategoryEditor.

Lemma default_categories_disjoint :
  stored_disjoint {[ "categories" := Storage.VCategories Background.defaultCategories ]}.
Proof.
  intros c Hc. rewrite lookup_singleton_eq in Hc. injection Hc as <-.
  intros x Hx Hx'. apply list_elem_of_In in Hx. apply list_elem_of_In in Hx'.
  simpl in Hx, Hx'.
  repeat (destruct Hx as [<- | Hx];
          [repeat (destruct Hx' as [Hx' | Hx']; [discriminate |]); exact Hx' |]).
  exact Hx.
Qed.

Lemma category_edits_preserve_disjointness_witness :
  stored_disjoint
    (Popup.addWebsiteToCategory "productive" "youtube.com"
       {[ "categories" := Storage.VCategories Background.defaultCategories ]})
  ∧ stored_disjoint
      (Popup.removeWebsiteFromCategory "productive" "youtube.com"
         {[ "categories" := Storage.VCategories Background.defaultCategories ]}).
Proof.
  destruct (category_edits_preserve_disjointness "productive" "youtube.com"
              {[ "categories" := Storage.VCategories Background.defaultCategories ]}
              default_categories_disjoint) as (Hadd & Hrem & _).
  split; [exact Hadd | exact Hrem].
Defined.

(** ** The paginated list (routes/api.js) *)
Section Pagination.
Import Api.

Variable isISO8601 : string -> bool.
Variable Date_parse : string -> option Z.
Variable regex_test_i : string -> string -> bool.

#[local] Instance newer_first_transitive : Transitive newer_first.
Proof. intros a b c. unfold newer_first. lia. Qed.

#[local] Instance newer_first_total : Total newer_first.
Proof. intros a b. unfold newer_first. lia. Qed.


Lemma sort_timestamp_desc_perm (l : list TimeEntry) :
  sort_timestamp_desc l ≡ₚ l.
Proof. apply merge_sort_Permutation. Qed.



Lemma page_bound (v : option string) :
  optional (isInt_min 1) v = true → 1 <= number_or 1 v.
Proof.
  destruct v as [s|]; simpl; [| lia].
  unfold isInt_min. destruct (int_of_string s); [lia | discriminate].
Qed.

Lemma limit_bound (v : option string) :
  optional (isInt_min_max 1 100) v = true → 1 <= number_or 50 v <= 100.
Proof.
  destruct v as [s|]; simpl; [| lia].
  unfold isInt_min_max. destruct (int_of_string s); [lia | discriminate].
Qed.



(** The body of a successful answer. *)
Lemma list_ok (q : ListQuery) (db : list TimeEntry) (body : ListBody) :
  list_time_entries isISO8601 Date_parse regex_test_i q db = Ok body →
  ∃ filter,
    build_filter Date_parse (q_userId q) (q_startDate q) (q_endDate q)
      (q_hostname q) (q_category q) = Some filter
    ∧ 1 <= number_or 1 (q_page q)
    ∧ 1 <= number_or 50 (q_limit q) <= 100
    ∧ entries body
      = take (Z.to_nat (number_or 50 (q_limit q)))
          (drop (Z.to_nat ((number_or 1 (q_page q) - 1) * number_or 50 (q_limit q)))
             (sort_timestamp_desc (List.filter (matches regex_test_i filter) db)))
    ∧ pagination body
      = {| currentPage := number_or 1 (q_page q);
           totalPages :=
             Math_ceil_div
               (Z.of_nat (length (List.filter (matches regex_test_i filter) db)))
               (number_or 50 (q_limit q));
           totalEntries :=
             Z.of_nat (length (List.filter (matches regex_test_i filter) db));
           hasNext :=
             (number_or 1 (q_page q) - 1) * number_or 50 (q_limit q)
             + Z.of_nat (length (entries body))
             <? Z.of_nat (length (List.filter (matches regex_test_i filter) db));
           hasPrev := number_or 1 (q_page q) >? 1 |}.
Proof.
  unfold list_time_entries.
  destruct (list_validators isISO8601 q) eqn:Hv; [| discriminate]. simpl.
  destruct (build_filter _ _ _ _ _ _) as [filter|]; [| discriminate].
  intros [= <-]. exists filter. simpl.
  unfold list_validators in Hv.
  repeat (apply andb_prop in Hv as [Hv ?]).
  repeat split; auto using page_bound; by apply limit_bound.
Qed.


(** The length of a page. *)
Lemma page_length (A : Type) (l : list A) (skip limit : Z) :
  0 <= skip → 0 <= limit →
  Z.of_nat (length (take (Z.to_nat limit) (drop (Z.to_nat skip) l)))
  = Z.min limit (Z.max 0 (Z.of_nat (length l) - skip)).
Proof. intros Hs Hl. rewrite length_take, length_drop. lia. Qed.


End Pagination.

(** Two entries, and the query that names only a limit. *)
Definition two_entries : list Api.TimeEntry :=
  [ Api.mkTimeEntry "github.com" None None 120 "productive" 1000 None;
    Api.mkTimeEntry "facebook.com" None None 60 "unproductive" 2000 None ].





(** ** Bulk insert (routes/api.js) *)
Section BulkInsert.
Import Api.

Variable isISO8601 : string -> bool.
Variable Date_parse : string -> option Z.

Lemma to_documents_all (now : Z) (l : list RawEntry) :
  Forall (fun r => is_Some (to_document Date_parse now r)) l →
  ∃ ds, to_documents Date_parse now l = Some ds
        ∧ Forall2 (fun r d => to_document Date_parse now r = Some d) l ds.
Proof.
  induction 1 as [|r l [d Hd] _ (ds & Hds & Hall)]; simpl.
  - exists []. split; [done | constructor].
  - rewrite Hd, Hds. exists (d :: ds). split; [done | by constructor].
Qed.

(** What the schema still refuses after the route's validators: a hostname
    of white space only, and a timestamp the date parser cannot read. *)
Lemma to_document_refused (now : Z) (r : RawEntry) :
  entry_validators isISO8601 r = true →
  to_document Date_parse now r = None →
  (∃ h, r_hostname r = JString h ∧ trim h = "")
  ∨ (∃ s, r_timestamp r = JString s ∧ s ≠ "" ∧ Date_parse s = None).
Proof.
  unfold entry_validators, to_document. intros Hv.
  repeat (apply andb_prop in Hv as [Hv ?]).
  destruct (r_hostname r) as [| |h| |]; try discriminate.
  destruct (r_category r) as [| |c| |]; try discriminate.
  assert (Hdur : ∃ z, match r_duration r with
                      | JInt z => Some z
                      | JString s => int_of_string s
                      | _ => None
                      end = Some z).
  { destruct (r_duration r) as [| |s|z|]; try discriminate; simpl in *.
    - unfold isInt_min in *. destruct (int_of_string s); [eauto | discriminate].
    - eauto. }
  destruct Hdur as [z ->].
  destruct (r_timestamp r) as [| |s| |] eqn:Ets; simpl in *; try discriminate.
  - destruct (String.eqb (trim h) "") eqn:Eh; [| discriminate].
    intros _. left. exists h. split; [done | by apply String.eqb_eq].
  - destruct (String.eqb s "") eqn:Es.
    + destruct (String.eqb (trim h) "") eqn:Eh; [| discriminate].
      intros _. left. exists h. split; [done | by apply String.eqb_eq].
    + destruct (Date_parse s) eqn:Ed.
      * destruct (String.eqb (trim h) "") eqn:Eh; [| discriminate].
        intros _. left. exists h. split; [done | by apply String.eqb_eq].
      * intros _. right. exists s. repeat split; auto. by apply String.eqb_neq.
Qed.

(** C7. A batch of 101 elements is refused with 400 whatever it holds, and
    the collection is unchanged; a batch of exactly 100 elements that pass
    the validators and the schema is answered with 201 and the 100 documents
    made of them, which are appended to the collection. *)
Theorem bulk_create_batch_size (now : Z) (l : list RawEntry)
    (db : list TimeEntry) :
  (length l = 101%nat →
   bulk_create isISO8601 Date_parse now (Some l) db = (BadRequest, db))
  ∧ (length l = 100%nat →
     Forall (fun r => entry_validators isISO8601 r = true
                      ∧ is_Some (to_document Date_parse now r)) l →
     ∃ savedEntries,
       bulk_create isISO8601 Date_parse now (Some l) db
       = (Created savedEntries, db ++ savedEntries)
       ∧ length savedEntries = 100%nat
       ∧ Forall2 (fun r d => to_document Date_parse now r = Some d) l savedEntries).
Proof.
  split.
  - intros Hlen. unfold bulk_create, bulk_validators. rewrite Hlen. reflexivity.
  - intros Hlen Hall.
    assert (Hv : forallb (entry_validators isISO8601) l = true).
    { apply forallb_forall. intros r Hr%list_elem_of_In.
      rewrite Forall_forall in Hall. by destruct (Hall r Hr). }
    assert (Hd : Forall (fun r => is_Some (to_document Date_parse now r)) l).
    { eapply Forall_impl; [exact Hall |]. by intros r [_ ?]. }
    destruct (to_documents_all now l Hd) as (ds & Hds & H2).
    exists ds. unfold bulk_create, bulk_validators.
    rewrite Hlen, Hv, Hds. simpl. repeat split; auto.
    rewrite <- Hlen. symmetry. eapply Forall2_length, H2.
Qed.

End BulkInsert.

Definition one_raw_entry : Api.RawEntry :=
  Api.mkRawEntry (Api.JString "github.com") (Api.JInt 120)
    (Api.JString "productive") Api.JUndefined Api.JUndefined None None.

Lemma bulk_create_batch_size_witness :
  Api.bulk_create ExampleHost.isISO8601 ExampleHost.Date_parse 5000
    (Some (replicate 101 one_raw_entry)) two_entries
  = (Api.BadRequest, two_entries)
  ∧ ∃ savedEntries,
      Api.bulk_create ExampleHost.isISO8601 ExampleHost.Date_parse 5000
        (Some (replicate 100 one_raw_entry)) two_entries
      = (Api.Created savedEntries, two_entries ++ savedEntries)
      ∧ length savedEntries = 100%nat.
Proof.
  split.
  - apply (bulk_create_batch_size ExampleHost.isISO8601 ExampleHost.Date_parse
             5000 (replicate 101 one_raw_entry) two_entries).
    reflexivity.
  - destruct (bulk_create_batch_size ExampleHost.isISO8601
                ExampleHost.Date_parse 5000 (replicate 100 one_raw_entry)
                two_entries) as [_ H].
    destruct H as (saved & Hrun & Hlen & _).
    + reflexivity.
    + apply Forall_replicate. split; [reflexivity | eexists; reflexivity].
    + exists saved. split; [exact Hrun | exact Hlen].
Defined.

(** ** The productivity score (routes/api.js) *)
Section ProductivityScore.
Import Api.

Variable isISO8601 : string -> bool.
Variable Date_parse : string -> option Z.
Variable regex_test_i : string -> string -> bool.

(** The score as the specification words it: [100 × productive / total]
    rounded to the nearest integer, a half going up, and 0 for an empty
    total. *)
Definition rounded_percentage (productive total : Z) : Z :=
  if total =? 0 then 0 else (200 * productive + total) / (2 * total).

Lemma rounded_percentage_range (productive total : Z) :
  0 <= productive <= total → 0 <= rounded_percentage productive total <= 100.
Proof.
  intros H. unfold rounded_percentage.
  destruct (total =? 0) eqn:E; [lia |]. apply Z.eqb_neq in E. split.
  - apply Z.div_pos; lia.
  - assert ((200 * productive + total) / (2 * total) < 101); [| lia].
    apply Z.div_lt_upper_bound; lia.
Qed.

(** [Math_round] on some doubles: halves go up, also below zero. *)
Lemma Math_round_examples :
  Math_round 14.5%float = Some 15
  ∧ Math_round 0.5%float = Some 1
  ∧ Math_round 2.25%float = Some 2
  ∧ Math_round (-2.5)%float = Some (-2)
  ∧ Math_round (-2.75)%float = Some (-3)
  ∧ Math_round 67%float = Some 67.
Proof. repeat split; vm_compute; reflexivity. Qed.

(** Multiplying before dividing keeps the half of 29 out of 200:
    [Math.round(100 * 29 / 200)] is 15. *)
Lemma multiply_first_29_of_200 :
  Math_round
    (PrimFloat.div (PrimFloat.mul (to_number 100) (to_number 29)) (to_number 200))
  = Some 15.
Proof. vm_compute. reflexivity. Qed.

(** The query without any parameter. *)
Definition no_filter : SummaryQuery := mkSummaryQuery None None None.

Lemma no_filter_matches (e : TimeEntry) :
  matches regex_test_i (mkFilter None None None None None) e = true.
Proof. reflexivity. Qed.

Lemma filter_no_filter (db : list TimeEntry) :
  List.filter (matches regex_test_i (mkFilter None None None None None)) db = db.
Proof. induction db as [|e db IH]; simpl; [done | by rewrite IH]. Qed.

(** The totals the [forEach] accumulates over the groups. *)
Lemma fold_accumulate_totalTime (groups : list CategoryGroup) (acc : Totals) :
  t_totalTime (fold_left accumulate groups acc)
  = t_totalTime acc + foldr (fun g s => g_totalTime g + s) 0 groups.
Proof.
  revert acc. induction groups as [|g groups IH]; intros acc; simpl; [lia |].
  rewrite IH. simpl. lia.
Qed.

Lemma sum_durations_filter_cons (c : string) (e : TimeEntry) (l : list TimeEntry) :
  sum_durations (List.filter (fun e => String.eqb (category e) c) (e :: l))
  = (if String.eqb (category e) c then duration e else 0)
    + sum_durations (List.filter (fun e => String.eqb (category e) c) l).
Proof. simpl. by destruct (String.eqb (category e) c). Qed.

Lemma sum_over_categories (cs : list string) (l : list TimeEntry) :
  NoDup cs → (∀ e, e ∈ l → category e ∈ cs) →
  foldr (fun c s =>
           sum_durations (List.filter (fun e => String.eqb (category e) c) l) + s)
        0 cs
  = sum_durations l.
Proof.
  intros Hnd. induction l as [|e l IH]; intros Hin.
  - simpl. induction cs as [|c cs IHc]; simpl; [done |].
    apply NoDup_cons in Hnd as [_ Hnd]. rewrite (IHc Hnd); [done |].
    intros e He. by apply elem_of_nil in He.
  - assert (Hl : ∀ e', e' ∈ l → category e' ∈ cs)
      by (intros e' He'; apply Hin; by right).
    specialize (IH Hl). change (sum_durations (e :: l)) with (duration e + sum_durations l).
    rewrite <- IH.
    assert (He : category e ∈ cs) by (apply Hin; by left).
    clear IH Hin Hl. induction cs as [|c cs IHc]; [by apply elem_of_nil in He |].
    apply NoDup_cons in Hnd as [Hc Hnd].
    cbn [foldr]. rewrite sum_durations_filter_cons.
    destruct (String.eqb_spec (category e) c) as [Heq | Hne].
    + subst c.
      assert (Hrest :
        foldr (fun c s =>
                 sum_durations
                   (List.filter (fun e0 => String.eqb (category e0) c) (e :: l)) + s)
              0 cs
        = foldr (fun c s =>
                   sum_durations
                     (List.filter (fun e0 => String.eqb (category e0) c) l) + s)
                0 cs).
      { clear IHc Hnd He. induction cs as [|c' cs IH']; [done |].
        cbn [foldr]. rewrite sum_durations_filter_cons.
        destruct (String.eqb_spec (category e) c') as [Heq | _].
        - exfalso. apply Hc. rewrite Heq. by left.
        - rewrite IH'; [lia |]. intros H. apply Hc. by right. }
      rewrite Hrest. lia.
    + apply elem_of_cons in He as [He | He]; [done |].
      rewrite (IHc Hnd He). lia.
Qed.

(** The grand total of the summary is the sum of the durations of all the
    entries matched, whatever their category. *)
Lemma group_totals_sum (l : list TimeEntry) :
  foldr (fun g s => g_totalTime g + s) 0 (group_by_category l) = sum_durations l.
Proof.
  unfold group_by_category.
  rewrite <- (sum_over_categories (remove_dups (map category l)) l).
  - induction (remove_dups (map category l)) as [|c cs IH]; simpl; [done |].
    by rewrite IH.
  - apply NoDup_remove_dups.
  - intros e He. apply elem_of_remove_dups, list_elem_of_fmap. eauto.
Qed.

(** The group of one category. *)
Definition group_of (l : list TimeEntry) (c : string) : CategoryGroup :=
  {| g_category := c;
     g_totalTime :=
       sum_durations (List.filter (fun e => String.eqb (category e) c) l);
     g_entryCount :=
       Z.of_nat (length (List.filter (fun e => String.eqb (category e) c) l));
     g_uniqueWebsiteCount :=
       Z.of_nat (length (remove_dups
                           (map hostname
                              (List.filter (fun e => String.eqb (category e) c) l)))) |}.

Lemma group_by_category_eq (l : list TimeEntry) :
  group_by_category l = map (group_of l) (remove_dups (map category l)).
Proof. reflexivity. Qed.

Lemma fold_accumulate_productiveTime (l : list TimeEntry) (cs : list string)
    (acc : Totals) :
  NoDup cs →
  t_productiveTime (fold_left accumulate (map (group_of l) cs) acc)
  = if bool_decide ("productive" ∈ cs)
    then g_totalTime (group_of l "productive")
    else t_productiveTime acc.
Proof.
  revert acc. induction cs as [|c cs IH]; intros acc Hnd; [done |].
  apply NoDup_cons in Hnd as [Hc Hnd]. cbn [map fold_left].
  rewrite (IH _ Hnd). cbn [accumulate t_productiveTime group_of g_category].
  destruct (String.eqb_spec c "productive") as [-> | Hne].
  - rewrite bool_decide_eq_false_2 by done.
    rewrite bool_decide_eq_true_2 by (by left). done.
  - destruct (decide ("productive" ∈ cs)) as [Hin | Hnin].
    + rewrite !bool_decide_eq_true_2; [done | by right | done].
    + rewrite !bool_decide_eq_false_2; [done | | done].
      intros [Heq | Hin]%elem_of_cons; [by subst | done].
Qed.

Lemma sum_durations_absent (l : list TimeEntry) (c : string) :
  c ∉ map category l →
  sum_durations (List.filter (fun e => String.eqb (category e) c) l) = 0.
Proof.
  induction l as [|e l IH]; [done |]. intros Hc.
  rewrite sum_durations_filter_cons.
  destruct (String.eqb_spec (category e) c) as [Heq | _].
  - exfalso. apply Hc. simpl. rewrite Heq. by left.
  - rewrite IH; [done |]. intros Hin. apply Hc. simpl. by right.
Qed.

(** The totals of the summary: [totalTime] is the sum of the durations of
    all the entries matched, [productiveTime] that of the productive ones. *)
Lemma analytics_summary_totals (q : SummaryQuery) (db : list TimeEntry)
    (s : Summary) :
  analytics_summary isISO8601 Date_parse regex_test_i q db = Ok s →
  ∃ filter,
    build_filter Date_parse (s_userId q) (s_startDate q) (s_endDate q) None None
    = Some filter
    ∧ totalTime s = sum_durations (List.filter (matches regex_test_i filter) db)
    ∧ productiveTime s
      = sum_durations
          (List.filter (fun e => String.eqb (category e) "productive")
             (List.filter (matches regex_test_i filter) db))
    ∧ score s = productivityScore (productiveTime s) (totalTime s).
Proof.
  unfold analytics_summary.
  destruct (summary_validators isISO8601 q); [| discriminate]. simpl.
  destruct (build_filter _ _ _ _ _ _) as [filter|]; [| discriminate].
  intros [= <-]. exists filter. simpl. repeat split.
  - rewrite fold_accumulate_totalTime, group_totals_sum. simpl. lia.
  - rewrite group_by_category_eq, fold_accumulate_productiveTime
      by apply NoDup_remove_dups.
    simpl. case_bool_decide as Hin; [done |].
    symmetry. apply sum_durations_absent.
    intros H. apply Hin. by apply elem_of_remove_dups.
Qed.

(** When no entry matches the filter, the totals and the score are 0. *)
Lemma analytics_summary_empty (q : SummaryQuery) (db : list TimeEntry)
    (filter : Filter) :
  summary_validators isISO8601 q = true →
  build_filter Date_parse (s_userId q) (s_startDate q) (s_endDate q) None None
  = Some filter →
  List.filter (matches regex_test_i filter) db = [] →
  analytics_summary isISO8601 Date_parse regex_test_i q db
  = Ok {| totalTime := 0; productiveTime := 0; score := Some 0;
          categoryBreakdown := ∅ |}.
Proof.
  intros Hv Hf Hnone. unfold analytics_summary. by rewrite Hv, Hf, Hnone.
Qed.

(** The scenario of the specification: 120 s productive, 60 s
    unproductive. *)
Lemma analytics_summary_scenario :
  ∃ s, analytics_summary isISO8601 Date_parse regex_test_i no_filter two_entries
       = Ok s
       ∧ totalTime s = 180 ∧ productiveTime s = 120 ∧ score s = Some 67.
Proof. eexists. split; [reflexivity |]. repeat split; vm_compute; reflexivity. Qed.

(** 29 s productive out of 200 s. *)
Definition entries_29_of_200 : list TimeEntry :=
  [ mkTimeEntry "github.com" None None 29 "productive" 1000 None;
    mkTimeEntry "example.com" None None 171 "neutral" 2000 None ].

(** C5 at the failing input. With 29 productive seconds out of 200 the
    percentage is exactly 14.5, which rounds to 15; the handler computes
    [(29 / 200) * 100] in double precision, gets 14.499999999999998, and
    answers 14. *)
Theorem productivityScore_29_of_200 :
  (∃ s, analytics_summary isISO8601 Date_parse regex_test_i no_filter
          entries_29_of_200 = Ok s
        ∧ totalTime s = 200 ∧ productiveTime s = 29 ∧ score s = Some 14)
  ∧ PrimFloat.ltb
      (PrimFloat.mul (PrimFloat.div (to_number 29) (to_number 200)) (to_number 100))
      14.5%float = true
  ∧ rounded_percentage 29 200 = 15.
Proof.
  split; [| split].
  - eexists. split; [reflexivity |]. repeat split; vm_compute; reflexivity.
  - vm_compute. reflexivity.
  - reflexivity.
Qed.

End ProductivityScore.

(* ===================================================================== *)
(** * Part III: further properties of the scripts                          *)
(* ===================================================================== *)

(** ** Runs of the tracker *)
Section TrackerRuns.
Import Storage Background.

Variable URL_hostname : string -> option string.

(** One delivery of an event: the clock, its ISO date, what the browser
    answers at that moment, and the event. *)
Record Occurrence : Type := mkOccurrence {
  at_ms : Z;
  at_day : string;
  browser : Browser;
  event : Event
}.

Definition completed (c : Completion) : World :=
  match c with
  | Normal w => w
  | Throw w => w
  end.

Definition react (w : World) (o : Occurrence) : World :=
  completed (dispatch URL_hostname (at_ms o) (at_day o) (browser o) (event o) w).

(** The listeners run one after the other, in delivery order. *)
Definition run (os : list Occurrence) (w : World) : World :=
  fold_left react os w.

Lemma saveTimeEntry_tracker (now : Z) (today domain : string) (timeSpent : Z)
    (url : string) (tabTitle : option string) (w : World) :
  tracker (saveTimeEntry now today domain timeSpent url tabTitle w) = tracker w.
Proof. reflexivity. Qed.

(** [stopTracking] either returns at its guard or leaves the tracker
    idle. *)
Lemma stopTracking_cases (now : Z) (today : string) (w : World) :
  stopTracking URL_hostname now today w = w
  ∨ tracker (stopTracking URL_hostname now today w) = idle.
Proof.
  unfold stopTracking.
  destruct (currentTab (tracker w)); [| by left].
  destruct (startTime (tracker w)); [| by left].
  destruct (negb (isTracking (tracker w)) || (z =? 0)); [by left | by right].
Qed.


(** *** The tracker is idle or holds one well-formed session *)

Definition session_ok (t : Tracker) : Prop :=
  t = idle
  ∨ ∃ tab u start,
      t = {| currentTab := Some tab; startTime := Some start; isTracking := true |}
      ∧ tab_url tab = Some u ∧ u ≠ ""
      ∧ JsString.startsWith u "chrome://" = false.

Lemma stopTracking_session_ok (now : Z) (today : string) (w : World) :
  session_ok (tracker w) →
  session_ok (tracker (stopTracking URL_hostname now today w)).
Proof.
  intros Hok. destruct (stopTracking_cases now today w) as [-> | ->];
    [done | by left].
Qed.

Lemma handleTabChange_session_ok (now : Z) (today : string)
    (get : Z → option Tab) (tabId : Z) (w : World) :
  session_ok (tracker w) →
  session_ok (tracker (completed (handleTabChange URL_hostname now today get tabId w))).
Proof.
  intros Hok. unfold handleTabChange, handleTabChange_try.
  pose proof (stopTracking_session_ok now today w Hok) as Hstop.
  destruct (get tabId) as [tab|]; [| done].
  destruct (tab_url tab) as [u|] eqn:Hu; [| done].
  destruct (String.eqb_spec u "") as [-> | Hne]; [done |].
  destruct (JsString.startsWith u "chrome://") eqn:Hc; [done |].
  right. exists tab, u, now. by simpl.
Qed.

Lemma react_session_ok (w : World) (o : Occurrence) :
  session_ok (tracker w) → session_ok (tracker (react w o)).
Proof.
  intros Hok. unfold react, dispatch.
  destruct (event o) as [tabId | tabId c a | windowId].
  - by apply handleTabChange_session_ok.
  - destruct (c && a); [by apply handleTabChange_session_ok | done].
  - destruct (windowId =? WINDOW_ID_NONE); [by apply stopTracking_session_ok |].
    destruct (tabs_query_active (browser o) windowId);
      [by apply handleTabChange_session_ok | done].
Qed.

(** Through any sequence of events the tracker is either idle or tracking
    exactly one tab, with a start time, whose URL is not empty and not a
    [chrome://] page. *)
Theorem run_session_ok (os : list Occurrence) (w : World) :
  session_ok (tracker w) → session_ok (tracker (run os w)).
Proof.
  revert w. induction os as [|o os IH]; intros w Hok; [done |].
  simpl. apply IH. by apply react_session_ok.
Qed.

(** *** What is posted passes the API's validators *)

Lemma getWebsiteCategory_range (domain : string) (st : gmap string Value) :
  getWebsiteCategory domain st ∈ Api.categoryNames.
Proof.
  unfold getWebsiteCategory, Api.categoryNames.
  assert (Hc : ∀ c, classify c domain ∈ [ "productive"; "unproductive"; "neutral" ]).
  { intros c. unfold classify.
    destruct (JsString.some _ (productive c)); [set_solver |].
    destruct (JsString.some _ (unproductive c)); set_solver. }
  destruct (st !! "categories") as [[c| |]|]; auto; set_solver.
Qed.

(** The body fields the two validators of [POST /api/time-entries] read. *)
Definition postable (e : BackendEntry) : Prop :=
  Api.body_isInt_min 1 (Api.JInt (be_duration e)) = true
  ∧ Api.body_isIn Api.categoryNames (Api.JString (be_category e)) = true
  ∧ 2 <= be_duration e.

Lemma isIn_elem_of (l : list string) (s : string) :
  s ∈ l → Api.isIn l s = true.
Proof.
  intros Hin. unfold Api.isIn. apply existsb_exists. exists s.
  split; [by apply list_elem_of_In | apply String.eqb_refl].
Qed.

Lemma stopTracking_postable (now : Z) (today : string) (w : World) :
  Forall postable (outbox w) →
  Forall postable (outbox (stopTracking URL_hostname now today w)).
Proof.
  intros Hall. unfold stopTracking.
  destruct (currentTab (tracker w)) as [tab|]; [| done].
  destruct (startTime (tracker w)) as [start|]; [| done].
  destruct (negb (isTracking (tracker w)) || (start =? 0)); [done |].
  destruct ((now - start) / 1000 >? 1) eqn:E; [| done].
  cbn [with_tracker outbox saveTimeEntry]. apply Forall_app. split; [done |].
  apply Forall_singleton. unfold postable.
  cbn [be_duration be_category Api.body_isInt_min Api.body_isIn].
  split; [| split].
  - apply Z.leb_le. lia.
  - apply isIn_elem_of, getWebsiteCategory_range.
  - lia.
Qed.

Lemma react_postable (w : World) (o : Occurrence) :
  Forall postable (outbox w) → Forall postable (outbox (react w o)).
Proof.
  intros Hall.
  assert (Hh : ∀ get tabId,
             Forall postable
               (outbox (completed (handleTabChange URL_hostname (at_ms o)
                                     (at_day o) get tabId w)))).
  { intros get tabId. unfold handleTabChange, handleTabChange_try.
    pose proof (stopTracking_postable (at_ms o) (at_day o) w Hall) as Hs.
    destruct (get tabId) as [tab|]; [| done].
    destruct (tab_url tab) as [u|]; [| done].
    by destruct (negb (String.eqb u "") && negb (JsString.startsWith u "chrome://")). }
  unfold react, dispatch.
  destruct (event o) as [tabId | tabId c a | windowId]; [apply Hh | |].
  - destruct (c && a); [apply Hh | done].
  - destruct (windowId =? WINDOW_ID_NONE); [by apply stopTracking_postable |].
    destruct (tabs_query_active (browser o) windowId); [apply Hh | done].
Qed.

(** Whatever the events, every entry the tracker posts lasts at least two
    seconds and carries a duration and a category that the API's
    validators accept. *)
Theorem run_posts_valid_entries (os : list Occurrence) (w : World) :
  Forall postable (outbox w) → Forall postable (outbox (run os w)).
Proof.
  revert w. induction os as [|o os IH]; intros w Hall; [done |].
  simpl. apply IH. by apply react_postable.
Qed.

End TrackerRuns.

(** ** What the tracker accounts for *)
Section TrackerAccounting.
Import Storage Background.

Variable URL_hostname : string -> option string.













(** *** The day bucket and the outbox tell the same story *)

(** [saveTimeEntry], read back through [getTimeDataForDate]: the entry of
    the domain gains the seconds and one visit and keeps the category and
    title of its first visit; a first visit creates it with the category of
    that moment; other domains and other keys are untouched. *)
Theorem saveTimeEntry_bucket (now : Z) (today domain : string) (timeSpent : Z)
    (url : string) (tabTitle : option string) (w : World) :
  domain ∉ JsObject.Object_prototype_keys →
  (∀ s, Messages.getTimeDataForDate today (storage w) !! domain = Some s →
        Messages.getTimeDataForDate today
          (storage (saveTimeEntry now today domain timeSpent url tabTitle w))
          !! domain
        = Some {| totalTime := totalTime s + timeSpent;
                  visits := visits s + 1;
                  category := category s;
                  lastVisit := now;
                  title := title s |})
  ∧ (Messages.getTimeDataForDate today (storage w) !! domain = None →
     Messages.getTimeDataForDate today
       (storage (saveTimeEntry now today domain timeSpent url tabTitle w))
       !! domain
     = Some {| totalTime := timeSpent;
               visits := 1;
               category := getWebsiteCategory domain (storage w);
               lastVisit := now;
               title := title_or tabTitle domain |})
  ∧ (∀ d, d ≠ domain →
          Messages.getTimeDataForDate today
            (storage (saveTimeEntry now today domain timeSpent url tabTitle w))
            !! d
          = Messages.getTimeDataForDate today (storage w) !! d)
  ∧ (∀ k, k ≠ "timeData_" +:+ today →
          storage (saveTimeEntry now today domain timeSpent url tabTitle w) !! k
          = storage w !! k).
Proof.
  intros Hproto.
  assert (Hread :
    Messages.getTimeDataForDate today
      (storage (saveTimeEntry now today domain timeSpent url tabTitle w))
    = record_visit now domain timeSpent tabTitle
        (getWebsiteCategory domain (storage w))
        (Messages.getTimeDataForDate today (storage w))).
  { unfold Messages.getTimeDataForDate. cbn [saveTimeEntry storage].
    by rewrite lookup_insert_eq. }
  rewrite Hread. unfold record_visit, JsObject.get, JsObject.inherited.
  rewrite (bool_decide_eq_false_2 _ Hproto).
  repeat split.
  - intros s Hs. rewrite Hs. by rewrite lookup_insert_eq.
  - intros Hnone. rewrite Hnone. by rewrite lookup_insert_eq.
  - intros d Hd.
    destruct (Messages.getTimeDataForDate today (storage w) !! domain);
      by rewrite lookup_insert_ne.
  - intros k Hk. cbn [saveTimeEntry storage]. by rewrite lookup_insert_ne.
Qed.











End TrackerAccounting.

(** A morning: github.com gains focus at 1 s, the browser loses focus at
    6 s and regains it at 7 s, and the tab finishes loading at 10.5 s. *)
Definition github_tab : Background.Tab :=
  Background.mkTab 7 (Some "https://www.github.com/rocq") (Some "GitHub").

Definition one_tab_browser : Background.Browser :=
  Background.mkBrowser (fun _ => Some github_tab) (fun _ => Some github_tab).

Definition morning : list Occurrence :=
  [ mkOccurrence 1000 "2024-03-15" one_tab_browser (Background.TabActivated 7);
    mkOccurrence 6000 "2024-03-15" one_tab_browser (Background.WindowFocusChanged (-1));
    mkOccurrence 7000 "2024-03-15" one_tab_browser (Background.WindowFocusChanged 1);
    mkOccurrence 10500 "2024-03-15" one_tab_browser (Background.TabUpdated 7 true true) ].

Definition fresh_world : Background.World :=
  Background.mkWorld Background.idle
    {[ "categories" := Storage.VCategories Background.defaultCategories ]} [].

Lemma morning_run :
  Background.outbox (run ExampleHost.URL_hostname morning fresh_world)
  = [ Storage.mkBackendEntry "github.com" 5 "https://www.github.com/rocq"
        (Some "GitHub") "productive";
      Storage.mkBackendEntry "github.com" 3 "https://www.github.com/rocq"
        (Some "GitHub") "productive" ]
  ∧ Messages.getTimeDataForDate "2024-03-15"
      (Background.storage (run ExampleHost.URL_hostname morning fresh_world))
    = {[ "github.com" := Storage.mkSiteStats 8 2 "productive" 10500 "GitHub" ]}.
Proof. split; vm_compute; reflexivity. Qed.

Lemma run_session_ok_witness :
  session_ok
    (Background.tracker (run ExampleHost.URL_hostname morning fresh_world)).
Proof.
  apply (run_session_ok ExampleHost.URL_hostname morning fresh_world).
  by left.
Defined.

Lemma run_posts_valid_entries_witness :
  Forall postable
    (Background.outbox (run ExampleHost.URL_hostname morning fresh_world)).
Proof.
  apply (run_posts_valid_entries ExampleHost.URL_hostname morning fresh_world).
  constructor.
Defined.


Lemma saveTimeEntry_bucket_witness :
  Messages.getTimeDataForDate "2024-03-15"
    (Background.storage
       (Background.saveTimeEntry 6000 "2024-03-15" "github.com" 5
          "https://www.github.com/rocq" (Some "GitHub") fresh_world))
    !! "github.com"
  = Some (Storage.mkSiteStats 5 1 "productive" 6000 "GitHub").
Proof.
  destruct (saveTimeEntry_bucket 6000 "2024-03-15" "github.com" 5
              "https://www.github.com/rocq" (Some "GitHub") fresh_world)
    as (_ & Hfirst & _).
  - intros H. apply list_elem_of_In in H. simpl in H.
    repeat (destruct H as [H | H]; [discriminate |]). exact H.
  - apply Hfirst. reflexivity.
Defined.


(** ** The category editor, the listener and the classifier together *)
Section CategoryFlow.
Import Storage Popup.

Lemma without_twice (website : string) (l : list string) :
  without website (without website l) = without website l.
Proof.
  unfold without. induction l as [|x l IH]; simpl; [done |].
  destruct (negb (String.eqb x website)) eqn:E; simpl; [rewrite E |]; by rewrite IH.
Qed.

Lemma without_absent (website : string) (l : list string) :
  website ∉ l → without website l = l.
Proof.
  unfold without. induction l as [|x l IH]; intros Hn; simpl; [done |].
  destruct (String.eqb_spec x website) as [-> | Hne]; simpl.
  - exfalso. apply Hn. by left.
  - rewrite IH; [done |]. intros H. apply Hn. by right.
Qed.

Lemma has_snoc (website : string) (l : list string) :
  has website (l ++ [website]) = true.
Proof. apply has_iff, elem_of_app. right. by apply list_elem_of_singleton. Qed.

Lemma load_updateCategories (c : Categories) (st : gmap string Value) :
  load (updateCategories c st) = Some c.
Proof. unfold load, updateCategories. by rewrite lookup_insert_eq. Qed.

Lemma updateCategories_twice (c c' : Categories) (st : gmap string Value) :
  updateCategories c' (updateCategories c st) = updateCategories c' st.
Proof. unfold updateCategories. apply insert_insert_eq. Qed.

(** Adding a site a second time changes nothing. *)
Theorem addWebsiteToCategory_twice (category website : string)
    (st : gmap string Value) :
  addWebsiteToCategory category website
    (addWebsiteToCategory category website st)
  = addWebsiteToCategory category website st.
Proof.
  destruct (decide (category = "productive")) as [-> | Hp];
    [| destruct (decide (category = "unproductive")) as [-> | Hu]].
  - destruct (load st) as [c|] eqn:Hload.
    + rewrite (addWebsiteToCategory_productive website st c Hload).
      rewrite (addWebsiteToCategory_productive website _ _
                 (load_updateCategories _ st)).
      rewrite updateCategories_twice. cbn [productive unproductive].
      rewrite without_twice.
      destruct (has website (productive c)) eqn:Hhas; [by rewrite Hhas |].
      by rewrite has_snoc.
    + assert (Hsame : addWebsiteToCategory "productive" website st = st)
        by (unfold addWebsiteToCategory; by rewrite Hload).
      by rewrite !Hsame.
  - destruct (load st) as [c|] eqn:Hload.
    + rewrite (addWebsiteToCategory_unproductive website st c Hload).
      rewrite (addWebsiteToCategory_unproductive website _ _
                 (load_updateCategories _ st)).
      rewrite updateCategories_twice. cbn [productive unproductive].
      rewrite without_twice.
      destruct (has website (unproductive c)) eqn:Hhas; [by rewrite Hhas |].
      by rewrite has_snoc.
    + assert (Hsame : addWebsiteToCategory "unproductive" website st = st)
        by (unfold addWebsiteToCategory; by rewrite Hload).
      by rewrite !Hsame.
  - by rewrite !addWebsiteToCategory_other.
Qed.

(** The stored arrays have no repeated site. *)
Definition stored_nodup (st : gmap string Value) : Prop :=
  ∀ c, st !! "categories" = Some (VCategories c) →
       NoDup (productive c) ∧ NoDup (unproductive c).

Lemma NoDup_without (website : string) (l : list string) :
  NoDup l → NoDup (without website l).
Proof.
  intros H. unfold without. apply NoDup_ListNoDup, List.NoDup_filter.
  by apply NoDup_ListNoDup.
Qed.

Lemma NoDup_push (website : string) (l : list string) :
  NoDup l → NoDup (if has website l then l else l ++ [website]).
Proof.
  intros Hnd. destruct (has website l) eqn:Hhas; [done |].
  apply NoDup_app. split; [done |]. split; [| apply NoDup_singleton].
  intros x Hx Hx'. apply list_elem_of_singleton in Hx' as ->.
  apply has_iff in Hx. congruence.
Qed.

Lemma load_nodup (st : gmap string Value) (c : Categories) :
  stored_nodup st → load st = Some c →
  NoDup (productive c) ∧ NoDup (unproductive c).
Proof.
  unfold load. intros Hst.
  destruct (st !! "categories") as [[c0| |]|] eqn:E; try discriminate.
  - intros [= <-]. by apply Hst.
  - intros [= <-]. split; apply NoDup_nil_2.
Qed.

Lemma stored_nodup_update (c : Categories) (st : gmap string Value) :
  NoDup (productive c) → NoDup (unproductive c) →
  stored_nodup (updateCategories c st).
Proof.
  intros Hp Hu c' Hc'. unfold updateCategories in Hc'.
  rewrite lookup_insert_eq in Hc'. by injection Hc' as <-.
Qed.

(** The editor never stores a site twice in an array: arrays without
    repetition stay so under add and remove. *)
Theorem category_edits_keep_nodup (category website : string)
    (st : gmap string Value) :
  stored_nodup st →
  stored_nodup (addWebsiteToCategory category website st)
  ∧ stored_nodup (removeWebsiteFromCategory category website st).
Proof.
  intros Hst. split.
  - destruct (load st) as [c|] eqn:Hload.
    + destruct (load_nodup st c Hst Hload) as [Hp Hu].
      destruct (decide (category = "productive")) as [-> | Hnp];
        [| destruct (decide (category = "unproductive")) as [-> | Hnu]].
      * rewrite (addWebsiteToCategory_productive website st c Hload).
        apply stored_nodup_update; cbn [productive unproductive].
        -- by apply NoDup_push.
        -- by apply NoDup_without.
      * rewrite (addWebsiteToCategory_unproductive website st c Hload).
        apply stored_nodup_update; cbn [productive unproductive].
        -- by apply NoDup_without.
        -- by apply NoDup_push.
      * by rewrite addWebsiteToCategory_other.
    + unfold addWebsiteToCategory. by rewrite Hload.
  - unfold removeWebsiteFromCategory.
    destruct (load st) as [c|] eqn:Hload; [| done].
    destruct (load_nodup st c Hst Hload) as [Hp Hu].
    unfold field, set_field.
    destruct (String.eqb category "productive").
    + apply stored_nodup_update; cbn [productive unproductive];
        [by apply NoDup_without | done].
    + destruct (String.eqb category "unproductive"); [| done].
      apply stored_nodup_update; cbn [productive unproductive];
        [done | by apply NoDup_without].
Qed.

(** From the editor to the classifier: once a site is added to the
    productive list, every domain containing it is classified productive;
    once it is added to the unproductive list, a domain containing it is
    classified unproductive unless it contains one of the other productive
    sites. *)
Theorem added_site_is_classified (website domain : string)
    (st : gmap string Value) (c : Categories) :
  load st = Some c → contains domain website →
  Background.getWebsiteCategory domain
    (addWebsiteToCategory "productive" website st) = "productive"
  ∧ ((∀ site, site ∈ productive c → site ≠ website → ¬ contains domain site) →
     Background.getWebsiteCategory domain
       (addWebsiteToCategory "unproductive" website st) = "unproductive").
Proof.
  intros Hload Hc. split.
  - rewrite (addWebsiteToCategory_productive website st c Hload).
    unfold Background.getWebsiteCategory, updateCategories.
    rewrite lookup_insert_eq. apply classify_productive.
    exists website. split; [| done]. cbn [productive].
    destruct (has website (productive c)) eqn:Hhas; [by apply has_iff |].
    apply elem_of_app. right. by apply list_elem_of_singleton.
  - intros Hother.
    rewrite (addWebsiteToCategory_unproductive website st c Hload).
    unfold Background.getWebsiteCategory, updateCategories.
    rewrite lookup_insert_eq. apply classify_unproductive.
    + cbn [productive]. intros site [Hin Hne]%elem_of_without. by apply Hother.
    + exists website. split; [| done]. cbn [unproductive].
      destruct (has website (unproductive c)) eqn:Hhas; [by apply has_iff |].
      apply elem_of_app. right. by apply list_elem_of_singleton.
Qed.

Lemma removeWebsiteFromCategory_productive (website : string)
    (st : gmap string Value) (c : Categories) :
  load st = Some c →
  removeWebsiteFromCategory "productive" website st
  = updateCategories
      {| productive := without website (productive c);
         unproductive := unproductive c |} st.
Proof. intros Hload. unfold removeWebsiteFromCategory. by rewrite Hload. Qed.

Lemma removeWebsiteFromCategory_unproductive (website : string)
    (st : gmap string Value) (c : Categories) :
  load st = Some c →
  removeWebsiteFromCategory "unproductive" website st
  = updateCategories
      {| productive := productive c;
         unproductive := without website (unproductive c) |} st.
Proof. intros Hload. unfold removeWebsiteFromCategory. by rewrite Hload. Qed.

(** Removing a site that was just added does not undo the add: the site
    ends in neither array, also when it was in the other array before;
    every other site is where it was. *)
Theorem add_then_remove (category website : string)
    (st : gmap string Value) (c : Categories) :
  load st = Some c →
  category = "productive" ∨ category = "unproductive" →
  ∃ c', load (removeWebsiteFromCategory category website
                (addWebsiteToCategory category website st)) = Some c'
        ∧ (website ∉ productive c') ∧ (website ∉ unproductive c')
        ∧ (∀ x, x ≠ website →
                (x ∈ productive c' ↔ x ∈ productive c)
                ∧ (x ∈ unproductive c' ↔ x ∈ unproductive c)).
Proof.
  intros Hload [-> | ->].
  - rewrite (addWebsiteToCategory_productive website st c Hload).
    rewrite (removeWebsiteFromCategory_productive website _ _
               (load_updateCategories _ st)).
    eexists. rewrite load_updateCategories. split; [done |].
    cbn [productive unproductive].
    split; [intros [_ H]%elem_of_without; done |].
    split; [intros [_ H]%elem_of_without; done |].
    intros x Hx. rewrite !elem_of_without. split; [| tauto].
    destruct (has website (productive c)); [tauto |].
    rewrite elem_of_app, list_elem_of_singleton. tauto.
  - rewrite (addWebsiteToCategory_unproductive website st c Hload).
    rewrite (removeWebsiteFromCategory_unproductive website _ _
               (load_updateCategories _ st)).
    eexists. rewrite load_updateCategories. split; [done |].
    cbn [productive unproductive].
    split; [intros [_ H]%elem_of_without; done |].
    split; [intros [_ H]%elem_of_without; done |].
    intros x Hx. rewrite !elem_of_without. split; [tauto |].
    destruct (has website (unproductive c)); [tauto |].
    rewrite elem_of_app, list_elem_of_singleton. tauto.
Qed.

(** Clearing all data also clears the category lists: afterwards every
    domain is neutral, every day is empty, and the editor starts from two
    empty arrays. *)
Theorem clearAllData_forgets_categories (st : gmap string Value)
    (domain date : string) :
  Background.getWebsiteCategory domain (PopupView.clearAllData true st) = "neutral"
  ∧ Messages.getTimeDataForDate date (PopupView.clearAllData true st) = ∅
  ∧ load (PopupView.clearAllData true st)
    = Some {| productive := []; unproductive := [] |}
  ∧ PopupView.clearAllData false st = st.
Proof. repeat split. Qed.

End CategoryFlow.

Section MessageListener.
Import Storage Background Messages.

Variable URL_hostname : string -> option string.

(** The listener never touches the tracker or the outbox and writes no key
    but [categories]; after [updateCategories] the classifier answers from
    the object received; the content script's messages change nothing and
    get no response. *)
Theorem onMessage_effects (request : Request) (w : World) :
  tracker (onMessage URL_hostname request w).2 = tracker w
  ∧ outbox (onMessage URL_hostname request w).2 = outbox w
  ∧ (∀ k, k ≠ "categories" →
          storage (onMessage URL_hostname request w).2 !! k = storage w !! k)
  ∧ (∀ c domain, request = UpdateCategories (VCategories c) →
       getWebsiteCategory domain (storage (onMessage URL_hostname request w).2)
       = classify c domain)
  ∧ (∀ action, request = OtherAction action →
       onMessage URL_hostname request w = (NoResponse, w)).
Proof.
  repeat split.
  - by destruct request.
  - by destruct request.
  - intros k Hk. destruct request; try done. simpl. by rewrite lookup_insert_ne.
  - intros c domain ->. simpl. unfold getWebsiteCategory.
    by rewrite lookup_insert_eq.
  - by intros action ->.
Qed.

End MessageListener.

Lemma category_edits_keep_nodup_witness :
  stored_nodup
    (Popup.addWebsiteToCategory "unproductive" "github.com"
       {[ "categories" := Storage.VCategories box_categories ]})
  ∧ stored_nodup
      (Popup.removeWebsiteFromCategory "unproductive" "xbox.com"
         {[ "categories" := Storage.VCategories box_categories ]}).
Proof.
  assert (H : stored_nodup {[ "categories" := Storage.VCategories box_categories ]}).
  { intros c Hc. rewrite lookup_singleton_eq in Hc. injection Hc as <-.
    split; apply NoDup_singleton. }
  split.
  - exact (proj1 (category_edits_keep_nodup "unproductive" "github.com" _ H)).
  - exact (proj2 (category_edits_keep_nodup "unproductive" "xbox.com" _ H)).
Defined.

Lemma added_site_is_classified_witness :
  Background.getWebsiteCategory "music.youtube.com"
    (Popup.addWebsiteToCategory "productive" "youtube.com"
       {[ "categories" := Storage.VCategories Background.defaultCategories ]})
  = "productive".
Proof.
  apply (added_site_is_classified "youtube.com" "music.youtube.com"
           {[ "categories" := Storage.VCategories Background.defaultCategories ]}
           Background.defaultCategories).
  - reflexivity.
  - apply includes_iff. reflexivity.
Defined.

Lemma add_then_remove_witness :
  ∃ c', Popup.load
          (Popup.removeWebsiteFromCategory "productive" "youtube.com"
             (Popup.addWebsiteToCategory "productive" "youtube.com"
                {[ "categories" := Storage.VCategories Background.defaultCategories ]}))
        = Some c'
        ∧ ("youtube.com" ∉ Storage.productive c')
        ∧ ("youtube.com" ∉ Storage.unproductive c').
Proof.
  destruct (add_then_remove "productive" "youtube.com"
              {[ "categories" := Storage.VCategories Background.defaultCategories ]}
              Background.defaultCategories)
    as (c' & Hload & Hp & Hu & _).
  - reflexivity.
  - by left.
  - exists c'. split; [exact Hload | split; [exact Hp | exact Hu]].
Defined.

(** ** The content script *)
Section ContentScript.
Import Content.

(** The events of a page, each with the clock at its delivery, handled in
    order; the messages sent are collected in order. *)
Definition content_step (acc : State * list Message) (te : Z * Event)
  : State * list Message :=
  ((handle te.1 te.2 acc.1).1, acc.2 ++ (handle te.1 te.2 acc.1).2).

Definition content_run (es : list (Z * Event)) (start : State * list Message)
  : State * list Message :=
  fold_left content_step es start.

(** What a receiver of the messages takes the user to be, having taken the
    user to be [b] before them. *)
Definition believed_active (b : bool) (ms : list Message) : bool :=
  fold_left (fun b m => match m with UserActivity a _ => a | _ => b end) ms b.

Lemma believed_active_app (b : bool) (ms ms' : list Message) :
  believed_active b (ms ++ ms') = believed_active (believed_active b ms) ms'.
Proof. apply fold_left_app. Qed.

Lemma handle_believed_active (now : Z) (e : Event) (s : State) :
  believed_active (isUserActive s) (handle now e s).2
  = isUserActive (handle now e s).1.
Proof.
  destruct e as [| | hidden | href]; simpl.
  - unfold trackActivity. by destruct (isUserActive s).
  - unfold inactivityCheck.
    by destruct ((now - lastActivity s >? inactiveThreshold) && isUserActive s).
  - unfold visibilitychange. by destruct hidden.
  - unfold mutation. by destruct (negb (String.eqb href (currentUrl s))).
Qed.

Lemma content_run_believed_active (es : list (Z * Event))
    (s : State) (ms : list Message) (b : bool) :
  believed_active b ms = isUserActive s →
  believed_active b (content_run es (s, ms)).2
  = isUserActive (content_run es (s, ms)).1.
Proof.
  revert s ms. induction es as [|te es IH]; intros s ms Hinv; [done |].
  simpl. unfold content_step at 2. simpl. apply IH.
  rewrite believed_active_app, Hinv. apply handle_believed_active.
Qed.

(** The activity flag and the reports never drift apart: after the script
    is loaded and any events are handled, the last activity report sent is
    the value of [isUserActive] (and the flag is still true when none was
    sent). *)
Theorem activity_reports_match_flag (href title : string) (now : Z)
    (es : list (Z * Event)) :
  believed_active true (content_run es (load href title now)).2
  = isUserActive (content_run es (load href title now)).1.
Proof. by apply content_run_believed_active. Qed.

(** The URLs announced, oldest first. *)
Definition announced_urls (ms : list Message) : list string :=
  omap (fun m => match m with
                 | UrlChanged url _ => Some url
                 | PageLoaded url _ _ => Some url
                 | UserActivity _ _ => None
                 end) ms.

Fixpoint no_stutter (l : list string) : Prop :=
  match l with
  | x :: (y :: _) as rest => x ≠ y ∧ no_stutter rest
  | _ => True
  end.

Lemma no_stutter_snoc (l : list string) (x z : string) :
  no_stutter l → last l = Some x → x ≠ z → no_stutter (l ++ [z]).
Proof.
  induction l as [|a l IH]; [done |].
  destruct l as [|b l].
  - intros _ [= ->] Hne. by simpl.
  - intros [Hab Hrest] Hlast Hne. split; [done |].
    apply IH; [done | exact Hlast | done].
Qed.

Definition urls_ok (st : State * list Message) : Prop :=
  no_stutter (announced_urls st.2)
  ∧ last (announced_urls st.2) = Some (currentUrl st.1).

Lemma content_step_urls_ok (acc : State * list Message) (te : Z * Event) :
  urls_ok acc → urls_ok (content_step acc te).
Proof.
  destruct acc as [s ms]. destruct te as [now e]. unfold urls_ok, content_step.
  cbn [fst snd]. unfold announced_urls. rewrite omap_app.
  intros [Hno Hlast].
  destruct e as [| | hidden | href]; simpl.
  - unfold trackActivity. destruct (isUserActive s); simpl;
      by rewrite app_nil_r.
  - unfold inactivityCheck.
    destruct ((now - lastActivity s >? inactiveThreshold) && isUserActive s);
      simpl; by rewrite app_nil_r.
  - unfold visibilitychange. destruct hidden; simpl; by rewrite app_nil_r.
  - unfold mutation.
    destruct (String.eqb_spec href (currentUrl s)) as [Heq | Hne]; simpl.
    + by rewrite app_nil_r.
    + split; [by apply (no_stutter_snoc _ (currentUrl s)) |].
      by rewrite last_snoc.
Qed.

(** A navigation is announced only when the URL changed: in the sequence of
    URLs announced since the page was loaded no URL follows itself, and the
    last one announced is the URL the script holds. *)
Theorem url_reports_never_repeat (href title : string) (now : Z)
    (es : list (Z * Event)) :
  no_stutter (announced_urls (content_run es (load href title now)).2)
  ∧ last (announced_urls (content_run es (load href title now)).2)
    = Some (currentUrl (content_run es (load href title now)).1).
Proof.
  assert (H : ∀ st, urls_ok st → urls_ok (content_run es st)).
  { induction es as [|te es IH]; intros st Hok; [done |].
    simpl. apply IH. by apply content_step_urls_ok. }
  apply (H (load href title now)). by split.
Qed.

End ContentScript.

(** ** What the popup shows *)
Section PopupDisplay.
Import Storage PopupView.

(** The fields [formatTime] prints: the whole seconds split into hours,
    minutes below 60 and seconds below 60, of which the two most
    significant non-zero ones are shown. *)
Theorem popup_formatTime_fields (milliseconds : Z) :
  0 <= milliseconds →
  ∃ h m s : Z,
    0 <= h ∧ 0 <= m < 60 ∧ 0 <= s < 60
    ∧ milliseconds / 1000 = 3600 * h + 60 * m + s
    ∧ formatTime milliseconds
      = if 0 <? h then pretty h +:+ "h " +:+ pretty m +:+ "m"
        else if 0 <? m then pretty m +:+ "m " +:+ pretty s +:+ "s"
        else pretty s +:+ "s".
Proof.
  intros Hms. set (secs := milliseconds / 1000).
  assert (Hsecs : 0 <= secs) by (apply Z.div_pos; lia).
  assert (Hmin : 0 <= secs / 60) by (apply Z.div_pos; lia).
  assert (Hh : 0 <= secs / 60 / 60) by (apply Z.div_pos; lia).
  exists (secs / 60 / 60), ((secs / 60) mod 60), (secs mod 60).
  pose proof (Z.mod_pos_bound (secs / 60) 60 ltac:(lia)).
  pose proof (Z.mod_pos_bound secs 60 ltac:(lia)).
  pose proof (Z.div_mod secs 60 ltac:(lia)) as Hd1.
  pose proof (Z.div_mod (secs / 60) 60 ltac:(lia)) as Hd2.
  repeat split; try lia.
  unfold formatTime. fold secs.
  rewrite !Z.rem_mod_nonneg by lia.
  replace (secs / 60 / 60 >? 0) with (0 <? secs / 60 / 60) by lia.
  destruct (0 <? secs / 60 / 60) eqn:E1; [done |].
  assert (Hm : (secs / 60) mod 60 = secs / 60) by lia.
  rewrite Hm. replace (secs / 60 >? 0) with (0 <? secs / 60) by lia.
  destruct (0 <? secs / 60) eqn:E2; [done |].
  assert (Hs : secs mod 60 = secs) by lia.
  by rewrite Hs.
Qed.

Lemma popup_formatTime_fields_witness :
  ∃ h m s : Z,
    3725000 / 1000 = 3600 * h + 60 * m + s
    ∧ formatTime 3725000
      = if 0 <? h then pretty h +:+ "h " +:+ pretty m +:+ "m"
        else if 0 <? m then pretty m +:+ "m " +:+ pretty s +:+ "s"
        else pretty s +:+ "s".
Proof.
  destruct (popup_formatTime_fields 3725000) as (h & m & s & _ & _ & _ & H1 & H2).
  - lia.
  - exists h, m, s. split; [exact H1 | exact H2].
Defined.

Lemma popup_formatTime_examples :
  formatTime 3725000 = "1h 2m" ∧ formatTime 125000 = "2m 5s"
  ∧ formatTime 5999 = "5s" ∧ formatTime 0 = "0s".
Proof. repeat split; vm_compute; reflexivity. Qed.

(** [formatTime] reads milliseconds: below one second it prints [0s]. *)
Lemma popup_formatTime_below_1000 (t : Z) :
  0 <= t < 1000 → formatTime t = "0s".
Proof.
  intros Ht. unfold formatTime. rewrite (Z.div_small t 1000) by lia. reflexivity.
Qed.

(** *** Sorting by time *)

Definition more_time_first (a b : string * SiteStats) : Prop :=
  totalTime b.2 <= totalTime a.2.

Lemma insert_by_time_perm (x : string * SiteStats) (l : list (string * SiteStats)) :
  insert_by_time x l ≡ₚ x :: l.
Proof.
  induction l as [|y l IH]; simpl; [done |].
  destruct (totalTime x.2 <? totalTime y.2); [| done].
  rewrite IH. apply Permutation_swap.
Qed.

Lemma sort_by_time_perm (l : list (string * SiteStats)) : sort_by_time l ≡ₚ l.
Proof.
  unfold sort_by_time. induction l as [|x l IH]; simpl; [done |].
  by rewrite insert_by_time_perm, IH.
Qed.

Lemma insert_by_time_sorted (x : string * SiteStats)
    (l : list (string * SiteStats)) :
  StronglySorted more_time_first l →
  StronglySorted more_time_first (insert_by_time x l).
Proof.
  induction 1 as [|y l Hl IH Hy]; simpl; [repeat constructor |].
  destruct (totalTime x.2 <? totalTime y.2) eqn:E.
  - constructor; [done |].
    rewrite insert_by_time_perm. constructor; [| done].
    unfold more_time_first. lia.
  - constructor; [by constructor |].
    constructor; [unfold more_time_first; lia |].
    eapply Forall_impl; [exact Hy |]. unfold more_time_first. intros z Hz. lia.
Qed.

Lemma sort_by_time_sorted (l : list (string * SiteStats)) :
  StronglySorted more_time_first (sort_by_time l).
Proof.
  unfold sort_by_time. induction l as [|x l IH]; simpl; [constructor |].
  by apply insert_by_time_sorted.
Qed.

(** The sort is stable: sites with the same time keep their order. *)
Lemma insert_by_time_ties (x : string * SiteStats) (l : list (string * SiteStats))
    (t : Z) :
  List.filter (fun y => totalTime y.2 =? t) (insert_by_time x l)
  = List.filter (fun y => totalTime y.2 =? t) (x :: l).
Proof.
  induction l as [|y l IH]; [done |].
  cbn [insert_by_time].
  destruct (totalTime x.2 <? totalTime y.2) eqn:E; [| done].
  cbn [List.filter] in *. rewrite IH.
  destruct (totalTime y.2 =? t) eqn:Ey; destruct (totalTime x.2 =? t) eqn:Ex;
    try done.
  lia.
Qed.

Lemma sort_by_time_stable (l : list (string * SiteStats)) (t : Z) :
  List.filter (fun y => totalTime y.2 =? t) (sort_by_time l)
  = List.filter (fun y => totalTime y.2 =? t) l.
Proof.
  unfold sort_by_time. induction l as [|x l IH]; [done |].
  cbn [foldr]. rewrite insert_by_time_ties. cbn [List.filter]. by rewrite IH.
Qed.

(** *** The day's summary *)

(** The time of the sites of one category. *)
Definition time_in (c : string) (sites : list (string * SiteStats)) : Z :=
  foldr (fun site s => (if String.eqb (category site.2) c then totalTime site.2 else 0) + s)
        0 sites.

Definition time_of_all (sites : list (string * SiteStats)) : Z :=
  foldr (fun site s => totalTime site.2 + s) 0 sites.

Lemma fold_add_site (sites : list (string * SiteStats)) (acc : TodayTotals) :
  fold_left add_site sites acc
  = {| productiveTime := productiveTime acc + time_in "productive" sites;
       unproductiveTime := unproductiveTime acc + time_in "unproductive" sites;
       totalTime_ := totalTime_ acc + time_of_all sites |}.
Proof.
  revert acc. induction sites as [|site sites IH]; intros acc.
  - destruct acc. simpl. f_equal; lia.
  - cbn [fold_left]. rewrite IH. unfold add_site, time_in, time_of_all.
    cbn [productiveTime unproductiveTime totalTime_ foldr].
    destruct (String.eqb_spec (category site.2) "productive") as [Hp | Hp].
    + rewrite Hp. simpl. f_equal; lia.
    + destruct (String.eqb (category site.2) "unproductive"); f_equal; lia.
Qed.

(** What [displayTodayData] shows: the productive and unproductive times
    are the sums over the sites of each category, the score is computed
    from the productive time and the time of all sites, and the list holds
    the five sites with the most time (all of them when there are fewer),
    longest first: no site left out has more time than a site shown. *)
Theorem displayTodayData_view (sites : list (string * SiteStats)) :
  shownProductive (displayTodayData sites)
  = formatTime (time_in "productive" sites)
  ∧ shownUnproductive (displayTodayData sites)
    = formatTime (time_in "unproductive" sites)
  ∧ productivityScore (displayTodayData sites)
    = Api.productivityScore (time_in "productive" sites) (time_of_all sites)
  ∧ length (websiteList (displayTodayData sites)) = (length sites `min` 5)%nat
  ∧ StronglySorted (fun a b => totalTime b.2 <= totalTime a.2)
      (websiteList (displayTodayData sites))
  ∧ (∀ x, x ∈ websiteList (displayTodayData sites) → x ∈ sites)
  ∧ (∀ shown hidden,
       websiteList (displayTodayData sites) ++ hidden ≡ₚ sites →
       shown ∈ websiteList (displayTodayData sites) →
       ∀ x, x ∈ hidden → totalTime x.2 <= totalTime shown.2).
Proof.
  unfold displayTodayData. cbn [shownProductive shownUnproductive
    productivityScore websiteList].
  rewrite fold_add_site. cbn [productiveTime unproductiveTime totalTime_].
  rewrite !Z.add_0_l.
  pose proof (sort_by_time_sorted sites) as Hsorted.
  pose proof (sort_by_time_perm sites) as Hperm.
  rewrite <- (take_drop 5 (sort_by_time sites)) in Hsorted.
  repeat split.
  - rewrite length_take, (Permutation_length Hperm). lia.
  - by apply StronglySorted_app_1_l in Hsorted.
  - intros x Hx. rewrite <- Hperm. by apply (subseteq_take 5).
  - intros shown hidden Hsplit Hshown x Hx.
    assert (Hhid : hidden ≡ₚ drop 5 (sort_by_time sites)).
    { apply (Permutation_app_inv_l (take 5 (sort_by_time sites))).
      by rewrite Hsplit, take_drop. }
    rewrite Hhid in Hx.
    exact (StronglySorted_app_1_elem_of _ _ _ _ _ Hsorted Hshown Hx).
Qed.

End PopupDisplay.

(** From the tracker to the popup: a first session on a domain that lasts
    from 2 to under 1000 seconds is stored as that many seconds, and the
    popup, whose [formatTime] reads milliseconds, shows it as [0s]. *)
Theorem short_session_shown_as_0s (URL_hostname : string → option string)
    (now start : Z) (today : string) (w : Background.World) (tab : Background.Tab) :
  tracking tab start w →
  2000 <= now - start < 1000000 →
  Background.getDomain URL_hostname (Background.url_of tab)
    ∉ JsObject.Object_prototype_keys →
  Messages.getTimeDataForDate today (Background.storage w)
    !! Background.getDomain URL_hostname (Background.url_of tab) = None →
  ∃ s,
    Messages.getTimeDataForDate today
      (Background.storage (Background.stopTracking URL_hostname now today w))
      !! Background.getDomain URL_hostname (Background.url_of tab) = Some s
    ∧ Storage.totalTime s = (now - start) / 1000
    ∧ PopupView.formatTime (Storage.totalTime s) = "0s".
Proof.
  intros Htr Hdur Hproto Hnone.
  rewrite (stopTracking_tracking URL_hostname now today w tab start Htr).
  assert (Hq : 2 <= (now - start) / 1000 < 1000).
  { split; [apply Z.div_le_lower_bound; lia | apply Z.div_lt_upper_bound; lia]. }
  destruct ((now - start) / 1000 >? 1) eqn:E; [| lia].
  destruct (saveTimeEntry_bucket now today
              (Background.getDomain URL_hostname (Background.url_of tab))
              ((now - start) / 1000) (Background.url_of tab)
              (Background.tab_title tab) w Hproto) as (_ & Hfirst & _).
  eexists. split; [exact (Hfirst Hnone) |]. cbn [Storage.totalTime].
  split; [done |]. apply popup_formatTime_below_1000. lia.
Qed.

Lemma short_session_shown_as_0s_witness :
  ∃ s,
    Messages.getTimeDataForDate "2023-11-14"
      (Background.storage
         (Background.stopTracking ExampleHost.URL_hostname 1700000008000
            "2023-11-14" github_session))
      !! "github.com" = Some s
    ∧ Storage.totalTime s = 8
    ∧ PopupView.formatTime (Storage.totalTime s) = "0s".
Proof.
  destruct (short_session_shown_as_0s ExampleHost.URL_hostname 1700000008000
              1700000000000 "2023-11-14" github_session
              (Background.mkTab 7 (Some "https://github.com/") (Some "GitHub")))
    as (s & H1 & H2 & H3).
  - split; [reflexivity | discriminate].
  - lia.
  - intros H. apply list_elem_of_In in H. vm_compute in H.
    repeat (destruct H as [H | H]; [discriminate |]). exact H.
  - reflexivity.
  - exists s. split; [exact H1 | split; [exact H2 | exact H3]].
Defined.

Lemma remove_dups_length {A : Type} `{EqDecision A} (l : list A) :
  (length (remove_dups l) <= length l)%nat.
Proof.
  induction l as [|x l IH]; simpl; [lia |].
  destruct (decide_rel elem_of x l); simpl; lia.
Qed.

(** ** The dashboard's figures *)
Section DashboardFigures.
Import Dashboard DashboardStats.

Definition total_duration (es : list Entry) : Z :=
  foldr (fun e s => duration e + s) 0 es.

Lemma fold_add_slice (wc : gmap string string) (es : list Entry) (acc : Slices) :
  productiveTime (fold_left (add_slice wc) es acc)
  + unproductiveTime (fold_left (add_slice wc) es acc)
  + neutralTime (fold_left (add_slice wc) es acc)
  = productiveTime acc + unproductiveTime acc + neutralTime acc + total_duration es.
Proof.
  revert acc. induction es as [|e es IH]; intros acc; simpl; [lia |].
  rewrite IH. unfold add_slice.
  destruct (has_category wc e "productive"); [simpl; lia |].
  destruct (has_category wc e "unproductive"); simpl; lia.
Qed.

Lemma fold_add_stat (wc : gmap string string) (es : list Entry) (p u n : Z) :
  fold_left (add_stat wc) es (p, u)
  = (productiveTime
       (fold_left (add_slice wc) es
          {| productiveTime := p; unproductiveTime := u; neutralTime := n |}),
     unproductiveTime
       (fold_left (add_slice wc) es
          {| productiveTime := p; unproductiveTime := u; neutralTime := n |})).
Proof.
  revert p u n. induction es as [|e es IH]; intros p u n; [done |].
  cbn [fold_left]. unfold add_stat at 2, add_slice at 2 4.
  cbn [fst snd productiveTime unproductiveTime neutralTime].
  destruct (has_category wc e "productive"); [apply IH |].
  destruct (has_category wc e "unproductive"); apply IH.
Qed.

(** The pie chart and the statistics panel: the three slices add up to the
    time of all the entries shown; the panel's productive and unproductive
    times are the first two slices; its score is computed from these two
    alone, so that neutral time does not count; the number of websites is
    at most the number of entries. *)
Theorem dashboard_figures (wc : gmap string string) (es : list Entry) :
  productiveTime (pieData wc es) + unproductiveTime (pieData wc es)
  + neutralTime (pieData wc es) = total_duration es
  ∧ totalProductiveTime (updateStats wc es) = productiveTime (pieData wc es)
  ∧ totalUnproductiveTime (updateStats wc es) = unproductiveTime (pieData wc es)
  ∧ productivityScore (updateStats wc es)
    = Api.productivityScore (productiveTime (pieData wc es))
        (productiveTime (pieData wc es) + unproductiveTime (pieData wc es))
  ∧ 0 <= uniqueWebsites (updateStats wc es) <= Z.of_nat (length es).
Proof.
  unfold pieData, updateStats.
  cbn [totalProductiveTime totalUnproductiveTime productivityScore uniqueWebsites].
  rewrite fold_add_slice.
  rewrite (fold_add_stat wc es 0 0 0).
  cbn [fst snd productiveTime unproductiveTime neutralTime].
  repeat split; try lia.
  pose proof (remove_dups_length (map hostname es)) as H.
  rewrite length_map in H. lia.
Qed.

(** [formatTime] of the dashboard prints whole hours and the whole minutes
    below 60 left over; the seconds left over, fewer than 60, are
    dropped. *)
Theorem dashboard_formatTime_fields (seconds : Z) :
  0 <= seconds →
  ∃ h m : Z,
    0 <= h ∧ 0 <= m < 60
    ∧ 3600 * h + 60 * m <= seconds < 3600 * h + 60 * m + 60
    ∧ formatTime seconds = pretty h +:+ "h " +:+ pretty m +:+ "m".
Proof.
  intros Hs. exists (seconds / 3600), (seconds mod 3600 / 60).
  pose proof (Z.mod_pos_bound seconds 3600 ltac:(lia)) as Hm.
  pose proof (Z.div_mod seconds 3600 ltac:(lia)) as Hd1.
  pose proof (Z.div_mod (seconds mod 3600) 60 ltac:(lia)) as Hd2.
  pose proof (Z.mod_pos_bound (seconds mod 3600) 60 ltac:(lia)) as Hm2.
  assert (0 <= seconds / 3600) by (apply Z.div_pos; lia).
  assert (0 <= seconds mod 3600 / 60) by (apply Z.div_pos; lia).
  assert (seconds mod 3600 / 60 < 60) by (apply Z.div_lt_upper_bound; lia).
  repeat split; try lia.
  unfold formatTime. by rewrite Z.rem_mod_nonneg by lia.
Qed.

End DashboardFigures.

Lemma dashboard_formatTime_fields_witness :
  ∃ h m : Z,
    3600 * h + 60 * m <= 3725 < 3600 * h + 60 * m + 60
    ∧ DashboardStats.formatTime 3725 = pretty h +:+ "h " +:+ pretty m +:+ "m".
Proof.
  destruct (dashboard_formatTime_fields 3725) as (h & m & _ & _ & H1 & H2).
  - lia.
  - exists h, m. split; [exact H1 | exact H2].
Defined.

Lemma dashboard_formatTime_examples :
  DashboardStats.formatTime 3725 = "1h 2m"
  ∧ DashboardStats.formatTime 59 = "0h 0m".
Proof. split; vm_compute; reflexivity. Qed.

(** ** More of the API *)
Section ApiFurther.
Import Api ApiRoutes.

Variable isISO8601 : string -> bool.
Variable Date_parse : string -> option Z.
Variable regex_test_i : string -> string -> bool.
Variable isURL : string -> bool.

Lemma isIn_true (l : list string) (s : string) : isIn l s = true → s ∈ l.
Proof.
  unfold isIn. rewrite existsb_exists. intros (x & Hx & Heq).
  apply String.eqb_eq in Heq as ->. by apply list_elem_of_In.
Qed.

Lemma truthy_Some (s : string) : s ≠ "" → truthy (Some s) = Some s.
Proof. intros Hne. unfold truthy. by rewrite (proj2 (String.eqb_neq s "") Hne). Qed.

(** *** What the list returns *)

(** Every entry of a page is a stored entry that satisfies the query: it
    has the category asked for, lies within the date bounds given, and
    belongs to the user named. *)
Theorem list_entries_match_query (q : ListQuery) (db : list TimeEntry)
    (body : ListBody) (e : TimeEntry) :
  list_time_entries isISO8601 Date_parse regex_test_i q db = Ok body →
  e ∈ entries body →
  e ∈ db
  ∧ (∀ c, q_category q = Some c → category e = c)
  ∧ (∀ s t, q_startDate q = Some s → s ≠ "" → Date_parse s = Some t →
            t <= timestamp e)
  ∧ (∀ s t, q_endDate q = Some s → s ≠ "" → Date_parse s = Some t →
            timestamp e <= t)
  ∧ (∀ u, q_userId q = Some u → u ≠ "" → userId e = Some u)
  ∧ (∀ p, q_hostname q = Some p → p ≠ "" → regex_test_i p (hostname e) = true).
Proof.
  intros Hok He.
  assert (Hcat : optional (isIn categoryNames) (q_category q) = true).
  { unfold list_time_entries in Hok.
    destruct (list_validators isISO8601 q) eqn:Hv; [| discriminate].
    unfold list_validators in Hv. by apply andb_prop in Hv as [_ ?]. }
  destruct (list_ok isISO8601 Date_parse regex_test_i q db body Hok)
    as (filter & Hf & _ & _ & Hentries & _).
  rewrite Hentries in He.
  apply (subseteq_take _ _ e) in He. apply (subseteq_drop _ _ e) in He.
  rewrite (sort_timestamp_desc_perm _) in He.
  apply list_elem_of_In, filter_In in He as [Hin Hm].
  split; [by apply list_elem_of_In |].
  unfold build_filter in Hf.
  destruct (date_bound Date_parse (q_startDate q)) as [gte|] eqn:Eg; [| discriminate].
  destruct (date_bound Date_parse (q_endDate q)) as [lte|] eqn:El; [| discriminate].
  injection Hf as <-.
  unfold matches in Hm. cbn [f_userId f_gte f_lte f_hostname f_category] in Hm.
  apply andb_prop in Hm as [Hm Hc]. apply andb_prop in Hm as [Hm Hh].
  apply andb_prop in Hm as [Hm Hl]. apply andb_prop in Hm as [Hu Hg].
  repeat split.
  - intros c Hq. rewrite Hq in Hcat, Hc. cbn [optional] in Hcat.
    assert (Hne : c ≠ "").
    { apply isIn_true in Hcat. intros ->. apply list_elem_of_In in Hcat.
      simpl in Hcat. repeat (destruct Hcat as [Hcat | Hcat]; [discriminate |]).
      exact Hcat. }
    rewrite (truthy_Some c Hne) in Hc. by apply String.eqb_eq.
  - intros s t Hq Hne Ht. unfold date_bound in Eg.
    rewrite Hq, (truthy_Some s Hne), Ht in Eg. injection Eg as <-. lia.
  - intros s t Hq Hne Ht. unfold date_bound in El.
    rewrite Hq, (truthy_Some s Hne), Ht in El. injection El as <-. lia.
  - intros u Hq Hne. rewrite Hq, (truthy_Some u Hne) in Hu.
    by apply bool_decide_eq_true_1 in Hu.
  - intros p Hq Hne. by rewrite Hq, (truthy_Some p Hne) in Hh.
Qed.

(** *** The two routes that create documents *)

(** What the schema asks of a document. *)
Definition valid_document (d : TimeEntry) : Prop :=
  1 <= duration d ∧ category d ∈ categoryNames ∧ hostname d ≠ "".

Lemma to_document_valid (now : Z) (r : RawEntry) (d : TimeEntry) :
  body_isInt_min 1 (r_duration r) = true →
  body_isIn categoryNames (r_category r) = true →
  to_document Date_parse now r = Some d →
  valid_document d.
Proof.
  unfold to_document, valid_document. intros Hdur Hcat.
  destruct (r_hostname r) as [| |h| |]; try discriminate.
  destruct (r_category r) as [| |c| |] eqn:Ec;
    try (destruct (r_duration r); discriminate).
  assert (Hz : ∀ z, match r_duration r with
                    | JInt z => Some z
                    | JString s => int_of_string s
                    | _ => None
                    end = Some z → 1 <= z).
  { intros z. destruct (r_duration r) as [| |s|z'|]; try discriminate; simpl in *.
    - unfold isInt_min in Hdur. intros Hs. rewrite Hs in Hdur. lia.
    - intros [= <-]. lia. }
  destruct (match r_duration r with
            | JInt z => Some z
            | JString s => int_of_string s
            | _ => None
            end) as [z|]; [| discriminate].
  destruct (match r_timestamp r with
            | JString s => if String.eqb s "" then Some now else Date_parse s
            | _ => Some now
            end) as [t|]; [| discriminate].
  destruct (String.eqb_spec (trim h) "") as [_ | Hne]; [discriminate |].
  intros [= <-]. simpl. repeat split; auto. by apply isIn_true.
Qed.

(** [POST /api/time-entries]: a body that fails validation is answered
    with 400; whatever the answer, the collection is unchanged unless the
    answer is 201, and then exactly the created document was appended. The
    document carries the server's clock, whatever timestamp the body has,
    and satisfies the schema. *)
Theorem create_entry_outcome (now : Z) (body : RawEntry) (db : list TimeEntry) :
  (create_validators isURL body = false →
   create_entry Date_parse isURL now body db = (BadRequest, db))
  ∧ ((∃ d, create_entry Date_parse isURL now body db = (Created d, db ++ [d])
           ∧ timestamp d = now ∧ valid_document d)
     ∨ create_entry Date_parse isURL now body db = (BadRequest, db)
     ∨ create_entry Date_parse isURL now body db = (ServerError, db)).
Proof.
  unfold create_entry. split; [by intros -> |].
  destruct (create_validators isURL body) eqn:Hv; [| by right; left]. simpl.
  destruct (to_document Date_parse now (stamped body)) as [d|] eqn:Hd;
    [| by right; right].
  left. exists d. split; [done |].
  unfold create_validators in Hv. repeat (apply andb_prop in Hv as [Hv ?]).
  split; [| by apply (to_document_valid now (stamped body))].
  unfold to_document, stamped in Hd. cbn in Hd.
  destruct (r_hostname body); try discriminate.
  destruct (r_category body); try (destruct (r_duration body); discriminate).
  destruct (match r_duration body with
            | JInt z => Some z
            | JString s => int_of_string s
            | _ => None
            end); [| discriminate].
  destruct (String.eqb (trim s) ""); [discriminate |]. by injection Hd as <-.
Qed.

Lemma to_documents_inv (now : Z) (l : list RawEntry) (ds : list TimeEntry) :
  to_documents Date_parse now l = Some ds →
  Forall2 (fun r d => to_document Date_parse now r = Some d) l ds.
Proof.
  revert ds. induction l as [|r l IH]; intros ds; simpl.
  - intros [= <-]. constructor.
  - destruct (to_document Date_parse now r) as [d|] eqn:Hd; [| discriminate].
    destruct (to_documents Date_parse now l) as [ds'|]; [| discriminate].
    intros [= <-]. constructor; [done | by apply IH].
Qed.


(** Both routes keep the collection within the schema: if every stored
    document has a duration of at least 1, a category among the three and
    a non-empty hostname, so has every document afterwards. *)
Theorem create_routes_keep_schema (now : Z) (body : RawEntry)
    (body_entries : option (list RawEntry)) (db : list TimeEntry) :
  Forall valid_document db →
  Forall valid_document (create_entry Date_parse isURL now body db).2
  ∧ Forall valid_document (bulk_create isISO8601 Date_parse now body_entries db).2.
Proof.
  intros Hdb. split.
  - destruct (create_entry_outcome now body db) as [_ [(d & -> & _ & Hd) | [-> | ->]]];
      simpl; auto.
    apply Forall_app. split; [done | by apply Forall_singleton].
  - unfold bulk_create.
    destruct (bulk_validators isISO8601 body_entries) eqn:Hv; [| done]. simpl.
    destruct body_entries as [l|]; [| done].
    destruct (to_documents Date_parse now l) as [ds|] eqn:Hds; [| done]. simpl.
    apply Forall_app. split; [done |].
    unfold bulk_validators in Hv. repeat (apply andb_prop in Hv as [Hv ?]).
    apply to_documents_inv in Hds.
    assert (Hl : Forall (fun r => entry_validators isISO8601 r = true) l).
    { apply Forall_forall. intros r Hr.
      match goal with H : forallb _ l = true |- _ =>
        rewrite forallb_forall in H; apply H; by apply list_elem_of_In end. }
    clear -Hds Hl. induction Hds as [|r d l ds Hrd _ IH]; [constructor |].
    apply Forall_cons in Hl as [Hr Hl]. constructor; [| by apply IH].
    unfold entry_validators in Hr. repeat (apply andb_prop in Hr as [Hr ?]).
    by apply (to_document_valid now r).
Qed.

End ApiFurther.

(** ** Pages, deletion and the top websites *)
Section ApiPaging.
Import Api ApiRoutes.

Variable isISO8601 : string -> bool.
Variable Date_parse : string -> option Z.
Variable regex_test_i : string -> string -> bool.






End ApiPaging.

(** *** DELETE *)
Section ApiDelete.
Import Api ApiRoutes.

Variable ObjectId_cast : string -> option string.

Lemma remove_by_id_absent (oid : string) (c : list (string * TimeEntry)) :
  oid ∉ c.*1 → remove_by_id oid c = None.
Proof.
  induction c as [|d c IH]; [done |]. simpl. intros Hn.
  destruct (String.eqb_spec d.1 oid) as [Heq | Hne].
  - exfalso. apply Hn. rewrite <- Heq. by left.
  - rewrite IH; [done |]. intros H. apply Hn. by right.
Qed.

Lemma remove_by_id_present (oid : string) (e : TimeEntry)
    (c : list (string * TimeEntry)) :
  NoDup c.*1 → (oid, e) ∈ c →
  remove_by_id oid c
  = Some (e, List.filter (fun d => negb (String.eqb d.1 oid)) c).
Proof.
  induction c as [|d c IH]; intros Hnd Hin; [by apply elem_of_nil in Hin |].
  simpl in Hnd. apply NoDup_cons in Hnd as [Hd Hnd]. simpl.
  destruct (String.eqb_spec d.1 oid) as [Heq | Hne]; simpl.
  - apply elem_of_cons in Hin as [Hin | Hin].
    + subst d. simpl. do 2 f_equal.
      clear IH. induction c as [|x c IHc]; [done |]. simpl.
      destruct (String.eqb_spec x.1 oid) as [Hx | Hx]; simpl.
      * exfalso. apply Hd. simpl. rewrite Hx. by left.
      * f_equal. apply IHc.
        -- intros H. apply Hd. simpl. by right.
        -- simpl in Hnd. by apply NoDup_cons in Hnd as [_ ?].
    + exfalso. apply Hd. rewrite Heq. apply list_elem_of_fmap.
      by exists (oid, e).
  - apply elem_of_cons in Hin as [Hin | Hin]; [by subst d |].
    by rewrite (IH Hnd Hin).
Qed.

(** [DELETE /api/time-entries/:id] on a collection with distinct ids. An
    id that does not cast is answered with 500 and an id that no document
    has with 404, the collection unchanged in both cases; otherwise the
    document with that id is returned and removed, every other document
    stays in place, and deleting the same id again is answered with 404. *)
Theorem delete_entry_outcome (id : string) (c : list (string * TimeEntry)) :
  NoDup c.*1 →
  (ObjectId_cast id = None → delete_entry ObjectId_cast id c = (ItemError, c))
  ∧ (∀ oid, ObjectId_cast id = Some oid → oid ∉ c.*1 →
            delete_entry ObjectId_cast id c = (ItemNotFound, c))
  ∧ (∀ oid e, ObjectId_cast id = Some oid → (oid, e) ∈ c →
       delete_entry ObjectId_cast id c
       = (ItemOk e, List.filter (fun d => negb (String.eqb d.1 oid)) c)
       ∧ (∀ d, d ∈ (delete_entry ObjectId_cast id c).2 ↔ d ∈ c ∧ d.1 ≠ oid)
       ∧ delete_entry ObjectId_cast id (delete_entry ObjectId_cast id c).2
         = (ItemNotFound, (delete_entry ObjectId_cast id c).2)).
Proof.
  intros Hnd. unfold delete_entry. split; [by intros -> |]. split.
  - intros oid -> Hn. by rewrite remove_by_id_absent.
  - intros oid e -> Hin. rewrite (remove_by_id_present oid e c Hnd Hin).
    cbn [snd]. split; [done |]. split.
    + intros d. rewrite list_elem_of_In, filter_In, <- list_elem_of_In.
      rewrite negb_true_iff, String.eqb_neq. tauto.
    + rewrite remove_by_id_absent; [done |].
      intros H. apply list_elem_of_fmap in H as (d & Hd1 & Hd2).
      apply list_elem_of_In, filter_In in Hd2 as [_ Hd2].
      apply negb_true_iff, String.eqb_neq in Hd2. congruence.
Qed.

End ApiDelete.

(** *** The top websites *)
Section ApiTopWebsites.
Import Api ApiRoutes.

#[local] Instance longer_first_transitive : Transitive longer_first.
Proof. intros a b c. unfold longer_first. lia. Qed.

#[local] Instance longer_first_total : Total longer_first.
Proof. intros a b. unfold longer_first. lia. Qed.

(** The list of top websites has at most ten entries, longest first; each
    stands for a hostname and category found among the matching entries,
    with the sum of their durations and their number; and whatever
    hostname and category is not in the list has no more time than any
    that is. *)
Theorem topWebsites_spec (found : list TimeEntry) :
  (length (topWebsites found) <= 10)%nat
  ∧ StronglySorted (fun a b => tw_totalTime b <= tw_totalTime a) (topWebsites found)
  ∧ (∀ t, t ∈ topWebsites found →
          (∃ e, e ∈ found ∧ hostname e = tw_hostname t ∧ category e = tw_category t)
          ∧ tw_totalTime t
            = sum_durations
                (List.filter (same_site (tw_hostname t) (tw_category t)) found)
          ∧ tw_entryCount t
            = Z.of_nat
                (length (List.filter (same_site (tw_hostname t) (tw_category t)) found)))
  ∧ (∀ e, e ∈ found →
          (∃ t, t ∈ topWebsites found
                ∧ tw_hostname t = hostname e ∧ tw_category t = category e)
          ∨ (∀ t, t ∈ topWebsites found →
                  sum_durations
                    (List.filter (same_site (hostname e) (category e)) found)
                  <= tw_totalTime t)).
Proof.
  unfold topWebsites.
  pose proof (StronglySorted_merge_sort longer_first (group_by_site found)) as Hs.
  pose proof (merge_sort_Permutation longer_first (group_by_site found)) as Hp.
  rewrite <- (take_drop 10 (merge_sort longer_first (group_by_site found))) in Hs.
  assert (Hgroup : ∀ t, t ∈ group_by_site found →
            (∃ e, e ∈ found ∧ hostname e = tw_hostname t ∧ category e = tw_category t)
            ∧ tw_totalTime t
              = sum_durations
                  (List.filter (same_site (tw_hostname t) (tw_category t)) found)
            ∧ tw_entryCount t
              = Z.of_nat
                  (length (List.filter (same_site (tw_hostname t) (tw_category t)) found))).
  { intros t Ht. unfold group_by_site in Ht.
    apply list_elem_of_fmap in Ht as ([h c] & -> & Hk).
    apply elem_of_remove_dups, list_elem_of_fmap in Hk as (e & Heq & He).
    injection Heq as -> ->. simpl. split; [by exists e | done]. }
  repeat split.
  - rewrite length_take. lia.
  - by apply StronglySorted_app_1_l in Hs.
  - apply Hgroup. rewrite <- Hp. by apply (subseteq_take 10).
  - apply Hgroup. rewrite <- Hp. by apply (subseteq_take 10).
  - apply Hgroup. rewrite <- Hp. by apply (subseteq_take 10).
  - intros e He.
    set (g := {| tw_hostname := hostname e; tw_category := category e;
                 tw_totalTime :=
                   sum_durations
                     (List.filter (same_site (hostname e) (category e)) found);
                 tw_entryCount :=
                   Z.of_nat
                     (length (List.filter (same_site (hostname e) (category e)) found)) |}).
    assert (Hg : g ∈ merge_sort longer_first (group_by_site found)).
    { rewrite Hp. unfold group_by_site. apply list_elem_of_fmap.
      exists (hostname e, category e). split; [done |].
      apply elem_of_remove_dups, list_elem_of_fmap. by exists e. }
    rewrite <- (take_drop 10 (merge_sort longer_first (group_by_site found))) in Hg.
    apply elem_of_app in Hg as [Hg | Hg].
    + left. by exists g.
    + right. intros t Ht.
      exact (StronglySorted_app_1_elem_of _ _ _ _ _ Hs Ht Hg).
Qed.

End ApiTopWebsites.

(** *** The category breakdown of the summary *)
Section ApiSummary.
Import Api ApiRoutes.

Variable isISO8601 : string -> bool.
Variable Date_parse : string -> option Z.
Variable regex_test_i : string -> string -> bool.

Lemma fold_accumulate_breakdown (l : list TimeEntry) (cs : list string)
    (acc : Totals) (c : string) :
  t_categoryBreakdown (fold_left accumulate (map (group_of l) cs) acc) !! c
  = if bool_decide (c ∈ cs) then Some (group_of l c)
    else t_categoryBreakdown acc !! c.
Proof.
  revert acc. induction cs as [|c0 cs IH]; intros acc; [done |].
  cbn [map fold_left]. rewrite IH.
  cbn [accumulate t_categoryBreakdown group_of g_category].
  destruct (decide (c ∈ cs)) as [Hin | Hnin].
  - rewrite !bool_decide_eq_true_2; [done | by right | done].
  - rewrite (bool_decide_eq_false_2 (c ∈ cs)) by done.
    destruct (decide (c = c0)) as [-> | Hne].
    + rewrite bool_decide_eq_true_2 by (by left). by rewrite lookup_insert_eq.
    + rewrite bool_decide_eq_false_2.
      * by rewrite lookup_insert_ne.
      * intros [Heq | Hin]%elem_of_cons; [by subst | done].
Qed.

Lemma sum_durations_nonneg (l : list TimeEntry) :
  Forall (fun e => 0 <= duration e) l → 0 <= sum_durations l.
Proof. induction 1; simpl; lia. Qed.

Lemma sum_durations_filter_le (p : TimeEntry → bool) (l : list TimeEntry) :
  Forall (fun e => 0 <= duration e) l →
  0 <= sum_durations (List.filter p l) <= sum_durations l.
Proof.
  induction 1 as [|e l He Hl IH]; simpl; [lia |].
  destruct (p e); simpl; lia.
Qed.

(** The category breakdown of the summary, over documents that satisfy
    the schema. A category has an entry in the breakdown exactly when a
    matching document has it, and the entry holds the sum of the durations,
    the number of documents and the number of distinct hostnames of that
    category; the productive time lies between 0 and the total time, and no
    category has more time than the total or more hostnames than
    documents. *)
Theorem analytics_summary_breakdown (q : SummaryQuery) (db : list TimeEntry)
    (s : Summary) :
  Forall valid_document db →
  analytics_summary isISO8601 Date_parse regex_test_i q db = Ok s →
  ∃ filter,
    build_filter Date_parse (s_userId q) (s_startDate q) (s_endDate q) None None
    = Some filter
    ∧ (∀ c, categoryBreakdown s !! c
            = if bool_decide
                   (c ∈ map category (List.filter (matches regex_test_i filter) db))
              then Some (group_of (List.filter (matches regex_test_i filter) db) c)
              else None)
    ∧ 0 <= productiveTime s <= totalTime s
    ∧ (∀ c g, categoryBreakdown s !! c = Some g →
              1 <= g_uniqueWebsiteCount g <= g_entryCount g
              ∧ 1 <= g_totalTime g <= totalTime s).
Proof.
  intros Hvalid Hs.
  destruct (analytics_summary_totals _ _ _ q db s Hs) as (filter & Hf & Ht & Hp & _).
  exists filter. split; [done |].
  set (found := List.filter (matches regex_test_i filter) db) in *.
  assert (Hfound : Forall valid_document found).
  { apply Forall_forall. intros e He.
    apply list_elem_of_In, filter_In in He as [He _].
    by apply (proj1 (Forall_forall _ _) Hvalid), list_elem_of_In. }
  assert (Hnonneg : Forall (fun e => 0 <= duration e) found).
  { eapply Forall_impl; [exact Hfound |]. intros e (? & _). lia. }
  assert (Hbreak : ∀ c, categoryBreakdown s !! c
            = if bool_decide (c ∈ map category found)
              then Some (group_of found c) else None).
  { intros c. revert Hs. unfold analytics_summary.
    destruct (summary_validators isISO8601 q); [| discriminate]. simpl.
    rewrite Hf. intros [= <-]. cbn [categoryBreakdown]. fold found.
    rewrite group_by_category_eq, fold_accumulate_breakdown.
    cbn [t_categoryBreakdown]. rewrite lookup_empty.
    destruct (decide (c ∈ map category found)) as [Hin | Hnin].
    - rewrite !bool_decide_eq_true_2; [done | done |].
      by apply elem_of_remove_dups.
    - rewrite !bool_decide_eq_false_2; [done | done |].
      by rewrite elem_of_remove_dups. }
  split; [exact Hbreak |]. split.
  - rewrite Hp, Ht. by apply sum_durations_filter_le.
  - intros c g Hg. rewrite Hbreak in Hg. case_bool_decide as Hc; [| discriminate].
    injection Hg as <-. cbn [group_of g_uniqueWebsiteCount g_entryCount g_totalTime].
    apply list_elem_of_fmap in Hc as (e & -> & He).
    set (members := List.filter (fun e0 => String.eqb (category e0) (category e)) found).
    assert (Hmem : e ∈ members).
    { apply list_elem_of_In, filter_In. split; [by apply list_elem_of_In |].
      apply String.eqb_refl. }
    assert (Hm : Forall valid_document members).
    { apply Forall_forall. intros x Hx.
      apply list_elem_of_In, filter_In in Hx as [Hx _].
      by apply (proj1 (Forall_forall _ _) Hfound), list_elem_of_In. }
    pose proof (remove_dups_length (map hostname members)) as Hlen.
    rewrite length_map in Hlen.
    assert (Hne : (1 <= length (remove_dups (map hostname members)))%nat).
    { assert (Hh : hostname e ∈ remove_dups (map hostname members)).
      { apply elem_of_remove_dups, list_elem_of_fmap. by exists e. }
      destruct (remove_dups (map hostname members)); [by apply elem_of_nil in Hh |].
      simpl. lia. }
    split; [lia |]. split.
    + clear -Hmem Hm. induction Hm as [|x l Hx Hl IH]; [by apply elem_of_nil in Hmem |].
      assert (0 <= sum_durations l).
      { apply sum_durations_nonneg. eapply Forall_impl; [exact Hl |].
        intros y (? & _). lia. }
      destruct Hx as (Hx & _). simpl. lia.
    + rewrite Ht. by apply sum_durations_filter_le.
Qed.

End ApiSummary.

(** ** The API theorems on the two entries of the scenario *)

Definition productive_only : Api.ListQuery :=
  Api.mkListQuery None None None None None (Some "productive") None.

Definition github_entry : Api.TimeEntry :=
  Api.mkTimeEntry "github.com" None None 120 "productive" 1000 None.

Definition facebook_entry : Api.TimeEntry :=
  Api.mkTimeEntry "facebook.com" None None 60 "unproductive" 2000 None.

Lemma list_entries_match_query_witness :
  Api.list_time_entries ExampleHost.isISO8601 ExampleHost.Date_parse
    ExampleHost.regex_test_i productive_only two_entries
  = Api.Ok (Api.mkListBody [github_entry] (Api.mkPagination 1 1 1 false false))
  ∧ github_entry ∈ two_entries
  ∧ Api.category github_entry = "productive".
Proof.
  split; [reflexivity |].
  destruct (list_entries_match_query ExampleHost.isISO8601 ExampleHost.Date_parse
              ExampleHost.regex_test_i productive_only two_entries
              (Api.mkListBody [github_entry] (Api.mkPagination 1 1 1 false false))
              github_entry)
    as (Hin & Hcat & _).
  - reflexivity.
  - by left.
  - split; [exact Hin |]. apply Hcat. reflexivity.
Defined.

Lemma two_entries_valid : Forall valid_document two_entries.
Proof.
  repeat constructor; simpl; try lia; try done.
Qed.

Lemma create_routes_keep_schema_witness :
  Forall valid_document two_entries
  ∧ Forall valid_document
      (ApiRoutes.create_entry ExampleHost.Date_parse (fun _ => true)
         1700000000000 one_raw_entry two_entries).2
  ∧ Forall valid_document
      (Api.bulk_create ExampleHost.isISO8601 ExampleHost.Date_parse
         1700000000000 (Some [one_raw_entry; one_raw_entry]) two_entries).2.
Proof.
  split; [exact two_entries_valid |].
  apply (create_routes_keep_schema ExampleHost.isISO8601 ExampleHost.Date_parse
           (fun _ => true) 1700000000000 one_raw_entry
           (Some [one_raw_entry; one_raw_entry]) two_entries).
  exact two_entries_valid.
Defined.



Definition two_documents : list (string * Api.TimeEntry) :=
  [ ("65f000000000000000000001", github_entry);
    ("65f000000000000000000002", facebook_entry) ].

Lemma delete_entry_outcome_witness :
  ApiRoutes.delete_entry Some "65f000000000000000000001" two_documents
  = (ApiRoutes.ItemOk github_entry, [("65f000000000000000000002", facebook_entry)])
  ∧ ApiRoutes.delete_entry Some "65f000000000000000000001"
      [("65f000000000000000000002", facebook_entry)]
    = (ApiRoutes.ItemNotFound, [("65f000000000000000000002", facebook_entry)]).
Proof.
  destruct (delete_entry_outcome Some "65f000000000000000000001" two_documents)
    as (_ & _ & Hfound).
  - apply NoDup_ListNoDup. repeat constructor; simpl; intros H;
      repeat (destruct H as [H | H]; [discriminate |]); exact H.
  - destruct (Hfound "65f000000000000000000001" github_entry) as (Hdel & _ & Hagain).
    + reflexivity.
    + by left.
    + split; [exact Hdel | exact Hagain].
Defined.

Lemma analytics_summary_breakdown_witness :
  ∃ s, Api.analytics_summary ExampleHost.isISO8601 ExampleHost.Date_parse
         ExampleHost.regex_test_i no_filter two_entries = Api.Ok s
       ∧ 0 <= Api.productiveTime s <= Api.totalTime s
       ∧ Api.categoryBreakdown s !! "neutral" = None.
Proof.
  eexists. split; [reflexivity |].
  destruct (analytics_summary_breakdown ExampleHost.isISO8601 ExampleHost.Date_parse
              ExampleHost.regex_test_i no_filter two_entries _
              two_entries_valid eq_refl)
    as (filter & _ & _ & Hle & _).
  split; [exact Hle |]. vm_compute. reflexivity.
Defined.
